(** * GoDCCP: the CCID3 receiver and the connection teardown paths

    A shallow embedding of [dccp/ccid3/receiver.go] (the receiver half of
    CCID3 congestion control) and of the teardown functions of [dccp.Conn]
    ([abort], [kill], [teardownUser], [teardownWriteLoop]).

    Go code that mutates a struct behind a pointer, logs, and may panic is
    written in a small monad [go S Ev]: a computation takes the struct [S],
    and either finishes with a value, a new struct and the events it emitted,
    or panics, or blocks for ever.  Integers of the source are [Z]; where
    the source subtracts two [int64] timestamps the difference wraps
    explicitly ([sub64]). *)

From Stdlib Require Import ZArith List String Bool Lia DecimalString.
Import ListNotations.
Open Scope string_scope.
Open Scope Z_scope.

Set Implicit Arguments.

(** ** Outcomes of a Go call *)

Section GoMonad.
Context {S Ev : Type}.

Inductive outcome (A : Type) : Type :=
| Done (a : A) (s : S) (tr : list Ev)
| Panicked (msg : string) (s : S) (tr : list Ev)
| Blocked (s : S) (tr : list Ev).

Arguments Done {A} a s tr.
Arguments Panicked {A} msg s tr.
Arguments Blocked {A} s tr.

Definition go (A : Type) : Type := S -> outcome A.

Definition ret {A} (a : A) : go A := fun s => Done a s [].

Definition bind {A B} (m : go A) (k : A -> go B) : go B :=
  fun s =>
    match m s with
    | Done a s1 t1 =>
        match k a s1 with
        | Done b s2 t2 => Done b s2 (t1 ++ t2)%list
        | Panicked msg s2 t2 => Panicked msg s2 (t1 ++ t2)%list
        | Blocked s2 t2 => Blocked s2 (t1 ++ t2)%list
        end
    | Panicked msg s1 t1 => Panicked msg s1 t1
    | Blocked s1 t1 => Blocked s1 t1
    end.

Definition gets {A} (f : S -> A) : go A := fun s => Done (f s) s [].
Definition modify (f : S -> S) : go unit := fun s => Done tt (f s) [].
Definition emit (e : Ev) : go unit := fun s => Done tt s [e].
Definition panic {A} (msg : string) : go A := fun s => Panicked msg s [].
Definition block {A} : go A := fun s => Blocked s [].

(** [when c m]: Go's [if c { m }]. *)
Definition when (c : bool) (m : go unit) : go unit :=
  if c then m else ret tt.

(** What an outcome says, for statements that do not care which. *)
Definition trace_of {A} (o : outcome A) : list Ev :=
  match o with
  | Done _ _ t | Panicked _ _ t | Blocked _ t => t
  end.

Definition state_of {A} (o : outcome A) : S :=
  match o with
  | Done _ s _ | Panicked _ s _ | Blocked s _ => s
  end.

Definition panicked {A} (o : outcome A) : bool :=
  match o with Panicked _ _ _ => true | _ => false end.

Definition returned {A} (o : outcome A) : bool :=
  match o with Done _ _ _ => true | _ => false end.
End GoMonad.

Arguments outcome : clear implicits.
Arguments go : clear implicits.
Arguments Done {S Ev A} a s tr.
Arguments Panicked {S Ev A} msg s tr.
Arguments Blocked {S Ev A} s tr.

Declare Scope go_scope.
Delimit Scope go_scope with go.
Notation "x <- m ;; k" := (bind m (fun x => k))
(at level 61, m at next level, right associativity) : go_scope.
Notation "m ;; k" := (bind m (fun _ => k))
(at level 61, right associativity) : go_scope.
Open Scope go_scope.

(** ** Machine integers *)

(** [int64] arithmetic wraps around; [wrap64 z] is the [int64] that Go
    stores for the mathematical integer [z]. *)
Definition wrap64 (z : Z) : Z := (z + 2 ^ 63) mod 2 ^ 64 - 2 ^ 63.
Definition sub64 (a b : Z) : Z := wrap64 (a - b).
Definition in_int64 (z : Z) : Prop := - 2 ^ 63 <= z < 2 ^ 63.

(** Go's [%d] of a length. *)
Definition itoa (n : nat) : string := NilEmpty.string_of_uint (Nat.to_uint n).

(** Go's [%v] of a bool. *)
Definition btoa (b : bool) : string := if b then "true" else "false".

(** ** The [dccp] package as the receiver sees it *)

Module dccp.

(** Modelled from the spec: the packet types ([dccp.Data], [dccp.Ack], ...),
    which the receiver only compares for equality; their declaration is not
    part of the sources at hand. *)
Inductive PacketType : Type :=
  Request | Response | Data | Ack | DataAck | CloseReq | Close | Reset | Sync | SyncAck.

Definition PacketType_eqb (a b : PacketType) : bool :=
  match a, b with
  | Request, Request | Response, Response | Data, Data | Ack, Ack
  | DataAck, DataAck | CloseReq, CloseReq | Close, Close | Reset, Reset
  | Sync, Sync | SyncAck, SyncAck => true
  | _, _ => false
  end.

(** Modelled from the spec: the sentinels returned as [error]
    ([dccp.CongestionAck] asks for an Ack, [ErrDrop] drops the packet,
    [ErrEOF] ends a read); Go's [nil] error is [None] of [option error]. *)
Inductive error : Type := CongestionAck | ErrDrop | ErrEOF.

(** Modelled from the spec: the levels of [Logger.E]. *)
Inductive Event : Type := EventInfo | EventWarn | EventMatch.

(** One call [logger.E(level, message, ...)].  The trailing arguments (the
    header the event is about, [LogArgs]) only decorate the line and are
    left out. *)
Record LogEvent : Type := LogE { ev_level : Event; ev_msg : string }.

(** [dccp.ElapsedTimeOption{Elapsed uint32}], built positionally by
    [makeElapsedTimeOption]. *)
Record ElapsedTimeOption : Type := mkElapsedTimeOption { Elapsed : Z }.

(** Modelled from the spec: [dccp.PreHeader], the outbound view of a
    packet, with the fields the spec lists. *)
Record PreHeader : Type := mkPreHeader {
  ph_Type : PacketType;
  ph_SeqNo : Z;
  ph_AckNo : Z;
  ph_CCVal : Z;
  ph_Time : Z
}.

(** Modelled from the spec: the wire form of an option ([dccp.Option], the
    "byte-option" of the option codec), whose declaration is not part of the
    sources at hand. *)
Record Option : Type := mkOption { opt_Type : Z; opt_Data : list Z }.

(** Modelled from the spec: [dccp.FeedforwardHeader], the inbound view of
    a validated packet, with the fields the spec lists. *)
Record FeedforwardHeader : Type := mkFeedforwardHeader {
  ff_Type : PacketType;
  ff_SeqNo : Z;
  ff_CCVal : Z;
  ff_Time : Z;
  ff_Options : list Option
}.

(** Modelled from the spec: the states of the socket. *)
Inductive State : Type :=
  LISTEN | REQUEST | RESPOND | PARTOPEN | OPEN | CLOSEREQ | CLOSING | TIMEWAIT | CLOSED.

(** Modelled from the spec: Reset Code 2 is "Aborted" ([dccp.ResetAborted];
    the comment on [abort] says the same). *)
Definition ResetAborted : Z := 2.

End dccp.

(** ** Package [ccid3]: what [receiver.go] takes from its neighbours

    The three structs embedded in [receiver] and the helpers [encodeOption]
    and [dccp.TenMicroFromNano] live in files that are not at hand.  The
    receiver is verified against any implementation of them: they are the
    fields of [Collaborators].  A method that the spec describes as a read
    ([RTT], [LossEventRateInv], [LossIntervalsOption], [String]) is a
    function of the sub-state; a method that updates its struct ([Init],
    [OnRead], [Flush]) returns the new sub-state.  None of them can reach the
    receiver's own fields: Go passes them the embedded struct only. *)

Module ccid3.

(** The typed options handed to [encodeOption].  Go passes a pointer inside
    an interface, so a nil pointer still carries its type: [None] under the
    option's own constructor. *)
Inductive unencodedOption {ReceiveRateOption LossIntervalsOption : Type} : Type :=
| UElapsedTime (p : option dccp.ElapsedTimeOption)
| UReceiveRate (p : option ReceiveRateOption)
| ULossIntervals (p : option LossIntervalsOption).
Arguments unencodedOption : clear implicits.

Class Collaborators : Type := {
  (* receiverRoundtripEstimator *)
  RoundtripEstimator : Type;
  rte_zero : RoundtripEstimator;
  rte_Init : RoundtripEstimator -> RoundtripEstimator;
  rte_OnRead : RoundtripEstimator -> dccp.FeedforwardHeader -> RoundtripEstimator;
  rte_RTT : RoundtripEstimator -> Z -> Z * bool;
  rte_String : RoundtripEstimator -> string;
  (* receiverRateCalculator *)
  RateCalculator : Type;
  ReceiveRateOption : Type;
  rc_zero : RateCalculator;
  rc_Init : RateCalculator -> RateCalculator;
  rc_OnRead : RateCalculator -> dccp.FeedforwardHeader -> RateCalculator;
  rc_Flush : RateCalculator -> Z -> Z -> RateCalculator * option ReceiveRateOption;
  (* receiverLossTracker *)
  LossTracker : Type;
  LossIntervalsOption : Type;
  lt_zero : LossTracker;
  lt_Init : LossTracker -> LossTracker;
  lt_OnRead : LossTracker -> dccp.FeedforwardHeader -> Z -> LossTracker;
  lt_LossEventRateInv : LossTracker -> Z;
  lt_LossIntervalsOption : LossTracker -> Z -> option LossIntervalsOption;
  (* helpers *)
  encodeOption :
    unencodedOption ReceiveRateOption LossIntervalsOption -> option dccp.Option;
  TenMicroFromNano : Z -> Z;
  Nstoa : Z -> string
}.

(** Modelled from the spec: [UnknownLossEventRateInv], the "unknown"
    sentinel of the inverse loss event rate, is the all-ones [uint32]. *)
Definition UnknownLossEventRateInv : Z := 2 ^ 32 - 1.

(** Modelled from the spec: [diffWindowCounter(a, b)] is [(a - b) mod 16],
    in [0, 16): the circular distance forward from [b] to [a].  Its source
    is not at hand. *)
Definition diffWindowCounter (a b : Z) : Z := (a - b) mod 16.

(** Modelled from the spec: [max64], the larger of two [int64]. *)
Definition max64 (a b : Z) : Z := Z.max a b.

Section Receiver.
Context {C : Collaborators}.

(** [type receiver struct].  [run] and [logger] are handles: what the
    receiver logs is the trace of its calls.  The embedded [dccp.Mutex] is
    locked by every method on entry and released on return, so a method is
    one atomic step. *)
Record receiver : Type := mkReceiver {
  receiverRoundtripEstimator : RoundtripEstimator;
  receiverRateCalculator : RateCalculator;
  receiverLossTracker : LossTracker;
  open : bool;
  lastWrite : Z;
  lastAck : Z;
  dataSinceAck : bool;
  lastLossEventRateInv : Z;
  gsr : Z;
  gsrTimestamp : Z;
  lastCCVal : Z;
  latestCCVal : Z
}.

Definition set_receiverRoundtripEstimator (v : RoundtripEstimator) (r : receiver) : receiver :=
  mkReceiver v (receiverRateCalculator r) (receiverLossTracker r) (open r)
    (lastWrite r) (lastAck r) (dataSinceAck r) (lastLossEventRateInv r)
    (gsr r) (gsrTimestamp r) (lastCCVal r) (latestCCVal r).
Definition set_receiverRateCalculator (v : RateCalculator) (r : receiver) : receiver :=
  mkReceiver (receiverRoundtripEstimator r) v (receiverLossTracker r) (open r)
    (lastWrite r) (lastAck r) (dataSinceAck r) (lastLossEventRateInv r)
    (gsr r) (gsrTimestamp r) (lastCCVal r) (latestCCVal r).
Definition set_receiverLossTracker (v : LossTracker) (r : receiver) : receiver :=
  mkReceiver (receiverRoundtripEstimator r) (receiverRateCalculator r) v (open r)
    (lastWrite r) (lastAck r) (dataSinceAck r) (lastLossEventRateInv r)
    (gsr r) (gsrTimestamp r) (lastCCVal r) (latestCCVal r).
Definition set_open (v : bool) (r : receiver) : receiver :=
  mkReceiver (receiverRoundtripEstimator r) (receiverRateCalculator r)
    (receiverLossTracker r) v
    (lastWrite r) (lastAck r) (dataSinceAck r) (lastLossEventRateInv r)
    (gsr r) (gsrTimestamp r) (lastCCVal r) (latestCCVal r).
Definition set_lastWrite (v : Z) (r : receiver) : receiver :=
  mkReceiver (receiverRoundtripEstimator r) (receiverRateCalculator r)
    (receiverLossTracker r) (open r)
    v (lastAck r) (dataSinceAck r) (lastLossEventRateInv r)
    (gsr r) (gsrTimestamp r) (lastCCVal r) (latestCCVal r).
Definition set_lastAck (v : Z) (r : receiver) : receiver :=
  mkReceiver (receiverRoundtripEstimator r) (receiverRateCalculator r)
    (receiverLossTracker r) (open r)
    (lastWrite r) v (dataSinceAck r) (lastLossEventRateInv r)
    (gsr r) (gsrTimestamp r) (lastCCVal r) (latestCCVal r).
Definition set_dataSinceAck (v : bool) (r : receiver) : receiver :=
  mkReceiver (receiverRoundtripEstimator r) (receiverRateCalculator r)
    (receiverLossTracker r) (open r)
    (lastWrite r) (lastAck r) v (lastLossEventRateInv r)
    (gsr r) (gsrTimestamp r) (lastCCVal r) (latestCCVal r).
Definition set_lastLossEventRateInv (v : Z) (r : receiver) : receiver :=
  mkReceiver (receiverRoundtripEstimator r) (receiverRateCalculator r)
    (receiverLossTracker r) (open r)
    (lastWrite r) (lastAck r) (dataSinceAck r) v
    (gsr r) (gsrTimestamp r) (lastCCVal r) (latestCCVal r).
Definition set_gsr (v : Z) (r : receiver) : receiver :=
  mkReceiver (receiverRoundtripEstimator r) (receiverRateCalculator r)
    (receiverLossTracker r) (open r)
    (lastWrite r) (lastAck r) (dataSinceAck r) (lastLossEventRateInv r)
    v (gsrTimestamp r) (lastCCVal r) (latestCCVal r).
Definition set_gsrTimestamp (v : Z) (r : receiver) : receiver :=
  mkReceiver (receiverRoundtripEstimator r) (receiverRateCalculator r)
    (receiverLossTracker r) (open r)
    (lastWrite r) (lastAck r) (dataSinceAck r) (lastLossEventRateInv r)
    (gsr r) v (lastCCVal r) (latestCCVal r).
Definition set_lastCCVal (v : Z) (r : receiver) : receiver :=
  mkReceiver (receiverRoundtripEstimator r) (receiverRateCalculator r)
    (receiverLossTracker r) (open r)
    (lastWrite r) (lastAck r) (dataSinceAck r) (lastLossEventRateInv r)
    (gsr r) (gsrTimestamp r) v (latestCCVal r).
Definition set_latestCCVal (v : Z) (r : receiver) : receiver :=
  mkReceiver (receiverRoundtripEstimator r) (receiverRateCalculator r)
    (receiverLossTracker r) (open r)
    (lastWrite r) (lastAck r) (dataSinceAck r) (lastLossEventRateInv r)
    (gsr r) (gsrTimestamp r) (lastCCVal r) v.

(** A method of the receiver: it runs on the struct and logs. *)
Definition method (A : Type) : Type := go receiver dccp.LogEvent A.

(** [r.logger.E(level, msg, ...)] *)
Definition logE (lvl : dccp.Event) (msg : string) : method unit :=
  emit (dccp.LogE lvl msg).

(** [newReceiver]: every field but the two handles has Go's zero value. *)
Definition newReceiver : receiver :=
  mkReceiver rte_zero rc_zero lt_zero false 0 0 false 0 0 0 0 0.

(** [func (r *receiver) Open()] *)
Definition Open : method unit :=
  o <- gets open ;;
  if o then panic "opening an open ccid3 receiver" else
  modify (fun r => set_receiverRoundtripEstimator (rte_Init (receiverRoundtripEstimator r)) r) ;;
  modify (fun r => set_receiverRateCalculator (rc_Init (receiverRateCalculator r)) r) ;;
  modify (fun r => set_receiverLossTracker (lt_Init (receiverLossTracker r)) r) ;;
  modify (set_open true) ;;
  modify (set_lastWrite 0) ;;
  modify (set_lastAck 0) ;;
  modify (set_dataSinceAck false) ;;
  modify (set_lastLossEventRateInv UnknownLossEventRateInv) ;;
  modify (set_gsr 0) ;;
  modify (set_gsrTimestamp 0) ;;
  modify (set_lastCCVal 0) ;;
  modify (set_latestCCVal 0).

(** [func (r *receiver) makeElapsedTimeOption(ackNo, now int64)]; a nil
    result is [None]. *)
Definition makeElapsedTimeOption (ackNo now : Z) : method (option dccp.ElapsedTimeOption) :=
  g <- gets gsr ;;
  if g =? 0 then ret None else
  if negb (ackNo =? g) then panic "ccid3 receiver: GSR != AckNo" else
  ts <- gets gsrTimestamp ;;
  let elapsedNS := max64 0 (sub64 now ts) in
  ret (Some (dccp.mkElapsedTimeOption (TenMicroFromNano elapsedNS))).

(** [r.receiverRateCalculator.Flush(rtt, now)]: the calculator is updated in
    place and the option returned. *)
Definition Flush (rtt now : Z) : method (option ReceiveRateOption) :=
  rc <- gets receiverRateCalculator ;;
  let '(rc', opt) := rc_Flush rc rtt now in
  modify (set_receiverRateCalculator rc') ;;
  ret opt.

(** [opts[i] == nil] *)
Definition isNil {A} (p : option A) : bool :=
  match p with None => true | Some _ => false end.

(** [func (r *receiver) OnWrite(ph *dccp.PreHeader) (options []*dccp.Option)].
    The returned slice is a list of pointers, each possibly nil; the nil
    slice is the empty list. *)
Definition OnWrite (ph : dccp.PreHeader) : method (list (option dccp.Option)) :=
  e <- gets receiverRoundtripEstimator ;;
  let '(rtt, _) := rte_RTT e (dccp.ph_Time ph) in
  modify (set_lastWrite (dccp.ph_Time ph)) ;;
  o <- gets open ;;
  if negb o then ret [] else
  match dccp.ph_Type ph with
  | dccp.Ack | dccp.DataAck =>
      modify (set_lastAck (dccp.ph_Time ph)) ;;
      modify (set_dataSinceAck false) ;;
      modify (fun r => set_lastLossEventRateInv (lt_LossEventRateInv (receiverLossTracker r)) r) ;;
      modify (fun r => set_lastCCVal (latestCCVal r) r) ;;
      g <- gets gsr ;;
      if g >? 0 then
        et <- makeElapsedTimeOption (dccp.ph_AckNo ph) (dccp.ph_Time ph) ;;
        let opts0 := encodeOption (UElapsedTime et) in
        when (isNil opts0)
          (logE dccp.EventWarn "ElapsedTime option encoding == nil") ;;
        rr <- Flush rtt (dccp.ph_Time ph) ;;
        let opts1 := encodeOption (UReceiveRate rr) in
        when (isNil opts1)
          (logE dccp.EventWarn "ReceiveRate option encoding == nil") ;;
        l <- gets receiverLossTracker ;;
        let opts2 :=
          encodeOption (ULossIntervals (lt_LossIntervalsOption l (dccp.ph_AckNo ph))) in
        when (isNil opts2)
          (logE dccp.EventWarn "LossIntervals option encoding == nil") ;;
        let opts := [opts0; opts1; opts2] in
        logE dccp.EventInfo ("Placed " ++ itoa (List.length opts) ++ " receiver opts") ;;
        ret opts
      else
        logE dccp.EventInfo "OnWrite, not seen packs before" ;;
        ret []
  | dccp.Data => ret []
  | _ => ret []
  end.

(** [ff.Type == dccp.Data || ff.Type == dccp.DataAck] *)
Definition isDataOrDataAck (t : dccp.PacketType) : bool :=
  dccp.PacketType_eqb t dccp.Data || dccp.PacketType_eqb t dccp.DataAck.

(** [func (r *receiver) OnRead(ff *dccp.FeedforwardHeader) error] *)
Definition OnRead (ff : dccp.FeedforwardHeader) : method (option dccp.error) :=
  o <- gets open ;;
  if negb o then ret None else
  g <- gets gsr ;;
  when (dccp.ff_SeqNo ff >? g)
    (modify (set_gsr (dccp.ff_SeqNo ff)) ;;
     modify (set_gsrTimestamp (dccp.ff_Time ff))) ;;
  when (isDataOrDataAck (dccp.ff_Type ff))
    (modify (set_dataSinceAck true) ;;
     modify (set_latestCCVal (dccp.ff_CCVal ff))) ;;
  modify (fun r => set_receiverRoundtripEstimator
                     (rte_OnRead (receiverRoundtripEstimator r) ff) r) ;;
  e <- gets receiverRoundtripEstimator ;;
  let '(rtt, est) := rte_RTT e (dccp.ff_Time ff) in
  logE dccp.EventInfo (rte_String e) ;;
  logE dccp.EventInfo ("RTT=" ++ Nstoa rtt ++ " EST=" ++ btoa est) ;;
  modify (fun r => set_receiverRateCalculator
                     (rc_OnRead (receiverRateCalculator r) ff) r) ;;
  modify (fun r => set_receiverLossTracker
                     (lt_OnRead (receiverLossTracker r) ff rtt) r) ;;
  l <- gets receiverLossTracker ;;
  last <- gets lastLossEventRateInv ;;
  if lt_LossEventRateInv l <? last then ret (Some dccp.CongestionAck) else
  if isDataOrDataAck (dccp.ff_Type ff) then
    lcc <- gets lastCCVal ;;
    if diffWindowCounter (dccp.ff_CCVal ff) lcc >=? 4
    then ret (Some dccp.CongestionAck)
    else ret None
  else ret None.

(** [func (r *receiver) OnIdle(now int64) error] *)
Definition OnIdle (now : Z) : method (option dccp.error) :=
  o <- gets open ;;
  if negb o then ret None else
  e <- gets receiverRoundtripEstimator ;;
  let '(rtt, _) := rte_RTT e now in
  d <- gets dataSinceAck ;;
  lw <- gets lastWrite ;;
  if d && (sub64 now lw >? rtt) then ret (Some dccp.CongestionAck) else
  ret None.

(** [func (r *receiver) Close()] *)
Definition Close : method unit := modify (set_open false).

End Receiver.
End ccid3.

(** ** Package [dccp]: the teardown paths of [Conn]

    [abort], [kill], [teardownUser] and [teardownWriteLoop] run on the
    connection struct.  A channel is its buffer and whether it has been
    closed; Go's [close] of a closed channel panics, and so does a send on
    one.  The trace of a call lists the steps it took, in order. *)

Module dccp_conn.

(** Modelled from the spec: the header of a control packet as the teardown
    code builds it, a type and, for a Reset, its Reset Code. *)
Record Header : Type := mkHeader { h_Type : dccp.PacketType; h_ResetCode : Z }.

Record chan (A : Type) : Type := mkChan { ch_buf : list A; ch_closed : bool }.

(** Modelled from the spec: the socket block; the teardown code touches its
    state only. *)
Record socket : Type := mkSocket {
  sk_State : dccp.State;
  sk_ISS : Z;
  sk_ISR : Z;
  sk_GSR : Z;
  sk_GAR : Z
}.

(** The fields of [Conn] that teardown reads or writes; [lk] is the embedded
    mutex (held or free). *)
Record Conn : Type := mkConn {
  lk : bool;
  c_socket : socket;
  readApp : chan (list Byte.byte);
  writeData : chan (list Byte.byte);
  writeNonData : chan Header
}.

Inductive ChanId : Type := ReadApp | WriteData | WriteNonData.

Definition ChanId_eqb (a b : ChanId) : bool :=
  match a, b with
  | ReadApp, ReadApp | WriteData, WriteData | WriteNonData, WriteNonData => true
  | _, _ => false
  end.

(** One step of a teardown call. [StSetState] records whether the mutex was
    held when the state was written. *)
Inductive Step : Type :=
| StLock
| StUnlock
| StSetState (s : dccp.State) (held : bool)
| StInject (h : Header)
| StClose (ch : ChanId).

Definition conn (A : Type) : Type := go Conn Step A.

Definition set_lk (v : bool) (c : Conn) : Conn :=
  mkConn v (c_socket c) (readApp c) (writeData c) (writeNonData c).
Definition set_socket (v : socket) (c : Conn) : Conn :=
  mkConn (lk c) v (readApp c) (writeData c) (writeNonData c).
Definition set_readApp (v : chan (list Byte.byte)) (c : Conn) : Conn :=
  mkConn (lk c) (c_socket c) v (writeData c) (writeNonData c).
Definition set_writeData (v : chan (list Byte.byte)) (c : Conn) : Conn :=
  mkConn (lk c) (c_socket c) (readApp c) v (writeNonData c).
Definition set_writeNonData (v : chan Header) (c : Conn) : Conn :=
  mkConn (lk c) (c_socket c) (readApp c) (writeData c) v.

(** [c.Lock()] on the embedded mutex: a held mutex makes the caller wait. *)
Definition Lock : conn unit :=
  held <- gets lk ;;
  if held then block else
  modify (set_lk true) ;; emit StLock.

(** [c.Unlock()]: Go stops a program that unlocks a free mutex. *)
Definition Unlock : conn unit :=
  held <- gets lk ;;
  if negb held then panic "sync: unlock of unlocked mutex" else
  modify (set_lk false) ;; emit StUnlock.

(** Modelled from the spec: [c.socket.SetState(s)] writes the protocol
    state of the socket block. *)
Definition SetState (s : dccp.State) : conn unit :=
  held <- gets lk ;;
  modify (fun c =>
    let k := c_socket c in
    set_socket (mkSocket s (sk_ISS k) (sk_ISR k) (sk_GSR k) (sk_GAR k)) c) ;;
  emit (StSetState s held).

(** Modelled from the spec: [c.generateReset(code)] builds a Reset packet
    with the given Reset Code. *)
Definition generateReset (code : Z) : conn Header :=
  ret (mkHeader dccp.Reset code).

(** Modelled from the spec: [c.inject(h)] hands [h] to the write loop by
    queueing it on [writeNonData], in arrival order; Go panics on a send to
    a closed channel. *)
Definition inject (h : Header) : conn unit :=
  ch <- gets writeNonData ;;
  if ch_closed ch then panic "send on closed channel" else
  modify (set_writeNonData (mkChan (ch_buf ch ++ [h]) false)) ;;
  emit (StInject h).

(** Go's builtin [close(ch)]. *)
Definition close {A} (get : Conn -> chan A) (set : chan A -> Conn -> Conn)
    (id : ChanId) : conn unit :=
  ch <- gets get ;;
  if ch_closed ch then panic "close of closed channel" else
  modify (set (mkChan (ch_buf ch) true)) ;;
  emit (StClose id).

(** [func (c *Conn) teardownUser()] *)
Definition teardownUser : conn unit :=
  close readApp set_readApp ReadApp ;;
  close writeData set_writeData WriteData.

(** [func (c *Conn) teardownWriteLoop()] *)
Definition teardownWriteLoop : conn unit :=
  close writeNonData set_writeNonData WriteNonData.

(** [func (c *Conn) abort()] *)
Definition abort : conn unit :=
  Lock ;;
  SetState dccp.CLOSED ;;
  Unlock ;;
  (h <- generateReset dccp.ResetAborted ;; inject h) ;;
  teardownUser ;;
  teardownWriteLoop.

(** [func (c *Conn) kill()] *)
Definition kill : conn unit :=
  Lock ;;
  SetState dccp.CLOSED ;;
  Unlock ;;
  teardownUser ;;
  teardownWriteLoop.

Definition is_close (id : ChanId) (st : Step) : bool :=
  match st with StClose ch => ChanId_eqb ch id | _ => false end.

(** How often a trace closes a channel. *)
Definition closes (id : ChanId) (tr : list Step) : nat :=
  List.length (filter (is_close id) tr).

(** A connection in state [st] with the mutex free, the three channels open
    and empty. *)
Definition live (st : dccp.State) : Conn :=
  mkConn false (mkSocket st 0 0 0 0) (mkChan [] false) (mkChan [] false)
    (mkChan [] false).

End dccp_conn.

(** ** A test double for the receiver's neighbours

    The loss tracker replays a script: [Init] loads it, each [OnRead]
    advances it by one, and [LossEventRateInv] is its head (the "unknown"
    sentinel once the script is used up).  The round-trip estimate is a
    constant, the rate calculator counts packets, the codec refuses nil. *)

Module scripted.

Definition stub_rtt : Z := 200000000.

Definition encode (u : ccid3.unencodedOption Z Z) : option dccp.Option :=
  match u with
  | ccid3.UElapsedTime (Some e) => Some (dccp.mkOption 43 [dccp.Elapsed e])
  | ccid3.UReceiveRate (Some n) => Some (dccp.mkOption 194 [n])
  | ccid3.ULossIntervals (Some v) => Some (dccp.mkOption 193 [v])
  | _ => None
  end.

Definition collaborators (script : list Z) : ccid3.Collaborators :=
  {| ccid3.RoundtripEstimator := unit;
     ccid3.rte_zero := tt;
     ccid3.rte_Init := fun _ => tt;
     ccid3.rte_OnRead := fun _ _ => tt;
     ccid3.rte_RTT := fun _ _ => (stub_rtt, false);
     ccid3.rte_String := fun _ => "stub";
     ccid3.RateCalculator := Z;
     ccid3.ReceiveRateOption := Z;
     ccid3.rc_zero := 0;
     ccid3.rc_Init := fun _ => 0;
     ccid3.rc_OnRead := fun n _ => n + 1;
     ccid3.rc_Flush := fun n _ _ => (0, Some n);
     ccid3.LossTracker := list Z;
     ccid3.LossIntervalsOption := Z;
     ccid3.lt_zero := [];
     ccid3.lt_Init := fun _ => script;
     ccid3.lt_OnRead := fun l _ _ => tl l;
     ccid3.lt_LossEventRateInv := fun l => hd ccid3.UnknownLossEventRateInv l;
     ccid3.lt_LossIntervalsOption :=
       fun l _ => match l with [] => None | v :: _ => Some v end;
     ccid3.encodeOption := encode;
     ccid3.TenMicroFromNano := fun ns => ns / 10000;
     ccid3.Nstoa := fun _ => "ns" |}.

(** Packets for the examples. *)
Definition packet (t : dccp.PacketType) (seqno ccval time : Z) : dccp.FeedforwardHeader :=
  dccp.mkFeedforwardHeader t seqno ccval time [].

Definition ack (ackno time : Z) : dccp.PreHeader :=
  dccp.mkPreHeader dccp.Ack 1 ackno 0 time.

(** The script of the examples: nothing known when the receiver opens, then
    an inverse loss event rate of 50, of 100, and of 90. *)
Definition script : list Z := [ccid3.UnknownLossEventRateInv; 50; 100; 90].
Definition E : ccid3.Collaborators := collaborators script.

(** A receiver that was never opened. *)
Definition fresh : ccid3.receiver (C := E) := ccid3.newReceiver.

(** The receiver right after [Open]. *)
Definition opened : ccid3.receiver (C := E) := state_of (ccid3.Open fresh).

(** The receiver after it has read data packet 7, acknowledged it, and read
    packet 8. *)
Definition after_feedback : ccid3.receiver (C := E) :=
  state_of ((ccid3.OnRead (packet dccp.Data 7 0 1000) ;;
             ccid3.OnWrite (ack 7 2000) ;;
             ccid3.OnRead (packet dccp.Ack 8 0 3000)) opened).

(** The same receiver two packets later, when the script has run out. *)
Definition drained : ccid3.receiver (C := E) :=
  state_of ((ccid3.OnRead (packet dccp.Ack 9 0 4000) ;;
             ccid3.OnRead (packet dccp.Ack 10 0 5000)) after_feedback).

End scripted.

(** ** Driving the receiver *)

Module harness.
Section Reads.
Context {C : ccid3.Collaborators}.

(** The packets of [ffs] read one after the other. *)
Fixpoint reads (ffs : list dccp.FeedforwardHeader) : ccid3.method unit :=
  match ffs with
  | [] => ret tt
  | ff :: rest => ccid3.OnRead ff ;; reads rest
  end.

(** The [Warn] event [OnWrite] logs for a slot that encoded to nil. *)
Definition warn_if_nil (o : option dccp.Option) (msg : string) : list dccp.LogEvent :=
  if ccid3.isNil o then [dccp.LogE dccp.EventWarn msg] else [].

(** One call a connection makes on its receiver. *)
Inductive call : Type :=
| CallOpen
| CallClose
| CallOnWrite (ph : dccp.PreHeader)
| CallOnRead (ff : dccp.FeedforwardHeader)
| CallOnIdle (now : Z).

Definition do_call (c : call) : ccid3.method unit :=
  match c with
  | CallOpen => ccid3.Open
  | CallClose => ccid3.Close
  | CallOnWrite ph => ccid3.OnWrite ph ;; ret tt
  | CallOnRead ff => ccid3.OnRead ff ;; ret tt
  | CallOnIdle now => ccid3.OnIdle now ;; ret tt
  end.

(** The calls of [cs] one after the other; a panic ends the run. *)
Fixpoint calls (cs : list call) : ccid3.method unit :=
  match cs with
  | [] => ret tt
  | c :: rest => do_call c ;; calls rest
  end.

Definition is_CallOpen (c : call) : bool :=
  match c with CallOpen => true | _ => false end.

(** The greatest of [g] and the sequence numbers of [ffs]. *)
Definition greatest (ffs : list dccp.FeedforwardHeader) (g : Z) : Z :=
  fold_left Z.max (map dccp.ff_SeqNo ffs) g.

(** No packet of [ffs] is a Data or a DataAck. *)
Definition no_data (ffs : list dccp.FeedforwardHeader) : bool :=
  forallb (fun ff => negb (ccid3.isDataOrDataAck (dccp.ff_Type ff))) ffs.

(** [ph.Type] is one of the two types [OnWrite] treats as an Ack. *)
Definition isAckOrDataAck (t : dccp.PacketType) : bool :=
  dccp.PacketType_eqb t dccp.Ack || dccp.PacketType_eqb t dccp.DataAck.

(** What every receiver reachable from [newReceiver] satisfies. *)
Definition gsr_seen (r : ccid3.receiver) : Prop :=
  0 <= ccid3.gsr r /\ (ccid3.gsr r = 0 -> ccid3.gsrTimestamp r = 0).

End Reads.

Definition is_inject (st : dccp_conn.Step) : bool :=
  match st with dccp_conn.StInject _ => true | _ => false end.

End harness.

(** * Properties *)

(** ** Machine arithmetic *)

Lemma wrap64_exact (z : Z) : in_int64 z -> wrap64 z = z.
Proof.
  unfold in_int64, wrap64; intros Hz.
  rewrite Z.mod_small by lia. lia.
Qed.

Lemma wrap64_range (z : Z) : in_int64 (wrap64 z).
Proof.
  unfold in_int64, wrap64.
  pose proof (Z.mod_pos_bound (z + 2 ^ 63) (2 ^ 64) ltac:(lia)). lia.
Qed.

(** The difference of two timestamps that are not negative does not wrap. *)
Lemma sub64_exact (a b : Z) :
  0 <= a < 2 ^ 63 -> 0 <= b < 2 ^ 63 -> sub64 a b = a - b.
Proof.
  intros Ha Hb. unfold sub64. apply wrap64_exact. unfold in_int64. lia.
Qed.

Lemma diffWindowCounter_range (a b : Z) : 0 <= ccid3.diffWindowCounter a b < 16.
Proof. unfold ccid3.diffWindowCounter. apply Z.mod_pos_bound. lia. Qed.

Lemma isDataOrDataAck_spec (t : dccp.PacketType) :
  ccid3.isDataOrDataAck t = true <-> t = dccp.Data \/ t = dccp.DataAck.
Proof.
  destruct t; cbn; split; intros H; try reflexivity; try discriminate;
    try (now left); try (now right); destruct H; discriminate.
Qed.

(** ** Running a method *)

(** Unfolds the monad and the setters, so that a method applied to a struct
    becomes the outcome it computes. *)
Ltac go_run :=
  cbv [ccid3.OnRead ccid3.OnIdle ccid3.OnWrite ccid3.Open ccid3.Close
       ccid3.makeElapsedTimeOption ccid3.Flush ccid3.logE ccid3.method
       bind gets modify emit ret when panic block app
       ccid3.set_receiverRoundtripEstimator ccid3.set_receiverRateCalculator
       ccid3.set_receiverLossTracker ccid3.set_open ccid3.set_lastWrite
       ccid3.set_lastAck ccid3.set_dataSinceAck ccid3.set_lastLossEventRateInv
       ccid3.set_gsr ccid3.set_gsrTimestamp ccid3.set_lastCCVal
       ccid3.set_latestCCVal
       ccid3.receiverRoundtripEstimator ccid3.receiverRateCalculator
       ccid3.receiverLossTracker ccid3.open ccid3.lastWrite ccid3.lastAck
       ccid3.dataSinceAck ccid3.lastLossEventRateInv ccid3.gsr
       ccid3.gsrTimestamp ccid3.lastCCVal ccid3.latestCCVal negb
       dccp.ph_Type dccp.ph_SeqNo dccp.ph_AckNo dccp.ph_CCVal dccp.ph_Time
       dccp.ff_Type dccp.ff_SeqNo dccp.ff_CCVal dccp.ff_Time dccp.ff_Options].

(** Runs [OnWrite] past the flush of the rate calculator, whose result is
    named by [Hflush], and past the three nil tests. *)
Ltac go_options Hflush :=
  repeat (go_run;
          first [ rewrite Hflush
                | match goal with
                  | |- context [ccid3.isNil ?o] => destruct (ccid3.isNil o)
                  end ]);
  go_run.

Section ReceiverFacts.
Context {C : ccid3.Collaborators}.
Implicit Types (r : ccid3.receiver) (ff : dccp.FeedforwardHeader)
  (ph : dccp.PreHeader).

(** A closed receiver ignores what it reads. *)
Lemma OnRead_closed r ff :
  ccid3.open r = false -> ccid3.OnRead ff r = Done None r [].
Proof. destruct r; cbn; intros ->; reflexivity. Qed.

(** A closed receiver never asks for an Ack when idle. *)
Lemma OnIdle_closed r now :
  ccid3.open r = false -> ccid3.OnIdle now r = Done None r [].
Proof. destruct r; cbn; intros ->; reflexivity. Qed.

(** [OnRead] always returns on an open receiver; it leaves it open and
    does not lower [gsr]. *)
Lemma OnRead_open_returns r ff :
  ccid3.open r = true ->
  exists v r' log,
    ccid3.OnRead ff r = Done v r' log /\
    ccid3.open r' = true /\ ccid3.gsr r <= ccid3.gsr r'.
Proof.
  destruct r as [e rc l o lw la d ll g gt lc cc], ff as [ty sq cv tm opts].
  cbn [ccid3.open]; intros ->. go_run.
  destruct (Z.gtb_spec sq g); destruct (ccid3.isDataOrDataAck ty); go_run;
    destruct (ccid3.rte_RTT _ _) as [rtt est]; go_run;
    destruct (_ <? _); try destruct (_ >=? _);
    do 3 eexists; (split; [reflexivity |]); cbn; split; try reflexivity; lia.
Qed.

(** Along any run of [OnRead] calls on an open receiver, [gsr] only grows. *)
Lemma reads_gsr_monotone (ffs : list dccp.FeedforwardHeader) :
  forall r, ccid3.open r = true ->
  exists r' log,
    harness.reads ffs r = Done tt r' log /\
    ccid3.open r' = true /\ ccid3.gsr r <= ccid3.gsr r'.
Proof.
  induction ffs as [| ff rest IH]; intros r Hopen.
  - exists r, []. cbn. repeat split; [assumption | lia].
  - destruct (OnRead_open_returns r ff Hopen) as (v & r1 & log1 & Hrun & Hopen1 & Hle).
    destruct (IH r1 Hopen1) as (r2 & log2 & Hrest & Hopen2 & Hle2).
    exists r2, (log1 ++ log2)%list.
    cbn [harness.reads]. unfold bind at 1. rewrite Hrun, Hrest.
    repeat split; [assumption | lia].
Qed.

(** What [OnIdle] computes on an open receiver. *)
Lemma OnIdle_open r now :
  ccid3.open r = true ->
  ccid3.OnIdle now r =
    Done (if ccid3.dataSinceAck r
             && (sub64 now (ccid3.lastWrite r)
                   >? fst (ccid3.rte_RTT (ccid3.receiverRoundtripEstimator r) now))
          then Some dccp.CongestionAck else None) r [].
Proof.
  destruct r as [e rc l o lw la d ll g gt lc cc]; cbn [ccid3.open].
  intros ->. go_run.
  destruct (ccid3.rte_RTT e now) as [rtt est]; cbn [fst].
  destruct (d && (sub64 now lw >? rtt)); reflexivity.
Qed.

(** *** Feedback condition I *)

(** C5: on an open receiver, [OnIdle(now)] returns [CongestionAck] when
    [dataSinceAck] holds and [now - lastWrite > rtt], where [rtt] is the
    estimate at [now] and the difference is the [int64] one the code
    computes; when either fails it returns nil.  The receiver is left as it
    was and nothing is logged. *)
Theorem OnIdle_feedback_condition_I r now :
  ccid3.open r = true ->
  let rtt := fst (ccid3.rte_RTT (ccid3.receiverRoundtripEstimator r) now) in
  (ccid3.dataSinceAck r = true -> sub64 now (ccid3.lastWrite r) > rtt ->
     ccid3.OnIdle now r = Done (Some dccp.CongestionAck) r []) /\
  (ccid3.dataSinceAck r = false \/ sub64 now (ccid3.lastWrite r) <= rtt ->
     ccid3.OnIdle now r = Done None r []).
Proof.
  intros Hopen rtt. rewrite (OnIdle_open r now Hopen). fold rtt. split.
  - intros -> Hgt. apply Z.gt_lt, Z.gtb_lt in Hgt. now rewrite Hgt.
  - intros [-> | Hle]; [reflexivity |].
    destruct (Z.gtb_spec (sub64 now (ccid3.lastWrite r)) rtt); [lia |].
    now rewrite andb_false_r.
Qed.

(** With timestamps that are not negative the difference is the
    mathematical one. *)
Corollary OnIdle_exact_difference r now :
  ccid3.open r = true ->
  0 <= now < 2 ^ 63 -> 0 <= ccid3.lastWrite r < 2 ^ 63 ->
  let rtt := fst (ccid3.rte_RTT (ccid3.receiverRoundtripEstimator r) now) in
  ccid3.OnIdle now r =
    Done (if ccid3.dataSinceAck r && (now - ccid3.lastWrite r >? rtt)
          then Some dccp.CongestionAck else None) r [].
Proof.
  intros Hopen Hnow Hlw rtt. rewrite (OnIdle_open r now Hopen).
  now rewrite (sub64_exact Hnow Hlw).
Qed.

(** *** Greatest sequence number received *)

(** C6: on an open receiver [OnRead] never lowers [gsr]; it sets [gsr] and
    [gsrTimestamp] to the packet's [SeqNo] and [Time] when [SeqNo > gsr]
    (compared as plain integers) and leaves both alone otherwise, whatever
    the packet's type. *)
Theorem OnRead_gsr r ff :
  ccid3.open r = true ->
  exists v r' log,
    ccid3.OnRead ff r = Done v r' log /\
    ccid3.gsr r <= ccid3.gsr r' /\
    (dccp.ff_SeqNo ff > ccid3.gsr r ->
       ccid3.gsr r' = dccp.ff_SeqNo ff /\
       ccid3.gsrTimestamp r' = dccp.ff_Time ff) /\
    (dccp.ff_SeqNo ff <= ccid3.gsr r ->
       ccid3.gsr r' = ccid3.gsr r /\
       ccid3.gsrTimestamp r' = ccid3.gsrTimestamp r).
Proof.
  destruct r as [e rc l o lw la d ll g gt lc cc], ff as [ty sq cv tm opts].
  cbn [ccid3.open]; intros ->. go_run.
  destruct (Z.gtb_spec sq g); destruct (ccid3.isDataOrDataAck ty); go_run;
    destruct (ccid3.rte_RTT _ _) as [rtt est]; go_run;
    destruct (_ <? _); try destruct (_ >=? _);
    do 3 eexists; (split; [reflexivity |]); cbn; lia.
Qed.

(** *** A closed receiver *)

(** C7 (as the code has it): with [open == false], [OnRead] and [OnIdle]
    return nil and [OnWrite] returns no options; [OnRead] and [OnIdle] leave
    the receiver untouched, [OnWrite] changes [lastWrite], which it sets to
    [ph.Time], and nothing else.  [Close] leaves a closed receiver as it is;
    [Open] opens it, and a second [Open] panics. *)
Theorem closed_receiver_operations r :
  ccid3.open r = false ->
  (forall ff, ccid3.OnRead ff r = Done None r []) /\
  (forall now, ccid3.OnIdle now r = Done None r []) /\
  (forall ph,
     ccid3.OnWrite ph r = Done [] (ccid3.set_lastWrite (dccp.ph_Time ph) r) []) /\
  ccid3.Close r = Done tt r [] /\
  (exists r',
     ccid3.Open r = Done tt r' [] /\ ccid3.open r' = true /\
     ccid3.Open r' = Panicked "opening an open ccid3 receiver" r' []).
Proof.
  intros Hclosed. repeat split.
  - intros ff. now apply OnRead_closed.
  - intros now. now apply OnIdle_closed.
  - intros [ty sq ak cv tm]. destruct r as [e rc l o lw la d ll g gt lc cc].
    cbn [ccid3.open] in Hclosed; subst o. go_run.
    destruct (ccid3.rte_RTT e tm) as [rtt est]. reflexivity.
  - destruct r as [e rc l o lw la d ll g gt lc cc].
    cbn [ccid3.open] in Hclosed; subst o. reflexivity.
  - destruct r as [e rc l o lw la d ll g gt lc cc].
    cbn [ccid3.open] in Hclosed; subst o.
    eexists. go_run. repeat split.
Qed.

(** *** Feedback conditions II and III *)

(** C3 (as the code has it): on an open receiver, [OnRead] returns
    [CongestionAck] when the loss tracker's [LossEventRateInv()] after the
    packet is below [lastLossEventRateInv], the value recorded by the last
    Ack; the value before the call plays no part.  A strict decrease across
    the call therefore forces the signal when the value before the call was
    at most [lastLossEventRateInv]. *)
Theorem OnRead_feedback_condition_II r ff :
  ccid3.open r = true ->
  exists v r' log,
    ccid3.OnRead ff r = Done v r' log /\
    ccid3.lastLossEventRateInv r' = ccid3.lastLossEventRateInv r /\
    (ccid3.lt_LossEventRateInv (ccid3.receiverLossTracker r')
       < ccid3.lastLossEventRateInv r ->
     v = Some dccp.CongestionAck) /\
    (ccid3.lt_LossEventRateInv (ccid3.receiverLossTracker r)
       <= ccid3.lastLossEventRateInv r ->
     ccid3.lt_LossEventRateInv (ccid3.receiverLossTracker r')
       < ccid3.lt_LossEventRateInv (ccid3.receiverLossTracker r) ->
     v = Some dccp.CongestionAck).
Proof.
  destruct r as [e rc l o lw la d ll g gt lc cc], ff as [ty sq cv tm opts].
  cbn [ccid3.open]; intros ->. go_run.
  destruct (sq >? g); destruct (ccid3.isDataOrDataAck ty); go_run;
    destruct (ccid3.rte_RTT _ _) as [rtt est]; go_run;
    match goal with |- context [?a <? ?b] => destruct (Z.ltb_spec a b) end;
    try destruct (_ >=? _);
    do 3 eexists; (split; [reflexivity |]); cbn;
    (split; [reflexivity |]); split; intros; try reflexivity; lia.
Qed.

(** C4 (as the code has it): on an open receiver, [OnRead] returns
    [CongestionAck] exactly when the loss tracker's [LossEventRateInv()]
    after the packet is below [lastLossEventRateInv] (any packet type), or
    the packet is a Data or DataAck and [(ccval - lastCCVal) mod 16 >= 4];
    in every other case it returns nil. *)
Theorem OnRead_signal_iff r ff :
  ccid3.open r = true ->
  exists v r' log,
    ccid3.OnRead ff r = Done v r' log /\
    (v = Some dccp.CongestionAck \/ v = None) /\
    (v = Some dccp.CongestionAck <->
       ccid3.lt_LossEventRateInv (ccid3.receiverLossTracker r')
         < ccid3.lastLossEventRateInv r
       \/ ((dccp.ff_Type ff = dccp.Data \/ dccp.ff_Type ff = dccp.DataAck) /\
           (dccp.ff_CCVal ff - ccid3.lastCCVal r) mod 16 >= 4)).
Proof.
  destruct r as [e rc l o lw la d ll g gt lc cc], ff as [ty sq cv tm opts].
  cbn [ccid3.open]; intros ->. go_run.
  pose proof (isDataOrDataAck_spec ty) as Hty.
  unfold ccid3.diffWindowCounter.
  destruct (sq >? g); destruct (ccid3.isDataOrDataAck ty); go_run;
    destruct (ccid3.rte_RTT _ _) as [rtt est]; go_run;
    match goal with |- context [?a <? ?b] => destruct (Z.ltb_spec a b) end;
    try match goal with |- context [?a >=? ?b] => destruct (Z.geb_spec a b) end;
    do 3 eexists; (split; [reflexivity |]); cbn;
    (split; [auto |]);
    (split;
     [ intros Hv;
       first [ discriminate Hv | left; lia | right; split; [now apply Hty | lia] ]
     | intros [Hlt | [Hdata Hge]];
       first [ reflexivity | lia | apply Hty in Hdata; discriminate ] ]).
Qed.

(** *** Options on an Ack *)

(** C1 (as the code has it): [OnWrite] of an Ack or DataAck on an open
    receiver returns, when [gsr > 0] and [ph.AckNo == gsr], three options in
    the order ElapsedTime, ReceiveRate, LossIntervals, each the encoding of
    the typed option; when [gsr > 0] and [ph.AckNo != gsr] it panics; when
    [gsr == 0] it returns no options. *)
Theorem OnWrite_ack_three_options r ph :
  ccid3.open r = true ->
  dccp.ph_Type ph = dccp.Ack \/ dccp.ph_Type ph = dccp.DataAck ->
  let now := dccp.ph_Time ph in
  let rtt := fst (ccid3.rte_RTT (ccid3.receiverRoundtripEstimator r) now) in
  let elapsed :=
    dccp.mkElapsedTimeOption
      (ccid3.TenMicroFromNano (ccid3.max64 0 (sub64 now (ccid3.gsrTimestamp r)))) in
  let rate := snd (ccid3.rc_Flush (ccid3.receiverRateCalculator r) rtt now) in
  let intervals :=
    ccid3.lt_LossIntervalsOption (ccid3.receiverLossTracker r) (dccp.ph_AckNo ph) in
  (ccid3.gsr r > 0 -> dccp.ph_AckNo ph = ccid3.gsr r ->
     exists r' log,
       ccid3.OnWrite ph r =
         Done [ccid3.encodeOption (ccid3.UElapsedTime (Some elapsed));
               ccid3.encodeOption (ccid3.UReceiveRate rate);
               ccid3.encodeOption (ccid3.ULossIntervals intervals)] r' log) /\
  (ccid3.gsr r > 0 -> dccp.ph_AckNo ph <> ccid3.gsr r ->
     exists r' log,
       ccid3.OnWrite ph r = Panicked "ccid3 receiver: GSR != AckNo" r' log) /\
  (ccid3.gsr r = 0 -> exists r' log, ccid3.OnWrite ph r = Done [] r' log).
Proof.
  destruct r as [e rc l o lw la d ll g gt lc cc], ph as [ty sq ak cv tm].
  cbn [ccid3.open ccid3.gsr dccp.ph_Type dccp.ph_Time dccp.ph_AckNo].
  intros -> Hty.
  destruct Hty as [-> | ->]; go_run;
    destruct (ccid3.rte_RTT e tm) as [rtt est]; cbn [fst]; go_run;
    destruct (ccid3.rc_Flush rc rtt tm) as [rc' rate] eqn:Hflush; cbn [snd];
    (split; [| split]).
  all: try (intros Hg ->;
            (destruct (Z.gtb_spec g 0); [| lia]);
            (destruct (Z.eqb_spec g 0); [lia |]);
            rewrite Z.eqb_refl; go_options Hflush;
            do 2 eexists; reflexivity).
  all: try (intros Hg Hne;
            (destruct (Z.gtb_spec g 0); [| lia]);
            (destruct (Z.eqb_spec g 0); [lia |]);
            (destruct (Z.eqb_spec ak g); [contradiction |]);
            do 2 eexists; reflexivity).
  all: intros ->; do 2 eexists; reflexivity.
Qed.

(** C2 (as the code has it): [OnWrite] of an Ack or DataAck on an open
    receiver with [gsr == 0] returns no option at all: neither ElapsedTime
    nor ReceiveRate nor LossIntervals.  It logs one Info event and no
    warning, and the rate calculator is not flushed. *)
Theorem OnWrite_ack_gsr_zero r ph :
  ccid3.open r = true ->
  dccp.ph_Type ph = dccp.Ack \/ dccp.ph_Type ph = dccp.DataAck ->
  ccid3.gsr r = 0 ->
  exists r',
    ccid3.OnWrite ph r =
      Done [] r' [dccp.LogE dccp.EventInfo "OnWrite, not seen packs before"] /\
    ccid3.receiverRateCalculator r' = ccid3.receiverRateCalculator r /\
    ccid3.lastAck r' = dccp.ph_Time ph /\
    ccid3.dataSinceAck r' = false.
Proof.
  destruct r as [e rc l o lw la d ll g gt lc cc], ph as [ty sq ak cv tm].
  cbn [ccid3.open ccid3.gsr dccp.ph_Type dccp.ph_Time dccp.ph_AckNo].
  intros -> Hty ->.
  destruct Hty as [-> | ->]; go_run;
    destruct (ccid3.rte_RTT e tm) as [rtt est]; go_run;
    eexists; repeat split.
Qed.

(** C10: [OnWrite] of an Ack or DataAck on an open receiver with [gsr > 0]
    returns whenever [ph.AckNo == gsr], and whatever it returns is a slice
    of length 3 holding the three results of [encodeOption] as they came: a
    nil result stays in its slot, and all that marks it is one Warn event
    in the log. *)
Theorem OnWrite_ack_raw_options r ph :
  ccid3.open r = true ->
  dccp.ph_Type ph = dccp.Ack \/ dccp.ph_Type ph = dccp.DataAck ->
  ccid3.gsr r > 0 ->
  let now := dccp.ph_Time ph in
  let rtt := fst (ccid3.rte_RTT (ccid3.receiverRoundtripEstimator r) now) in
  let opts0 :=
    ccid3.encodeOption (ccid3.UElapsedTime (Some (dccp.mkElapsedTimeOption
      (ccid3.TenMicroFromNano (ccid3.max64 0 (sub64 now (ccid3.gsrTimestamp r))))))) in
  let opts1 :=
    ccid3.encodeOption (ccid3.UReceiveRate
      (snd (ccid3.rc_Flush (ccid3.receiverRateCalculator r) rtt now))) in
  let opts2 :=
    ccid3.encodeOption (ccid3.ULossIntervals
      (ccid3.lt_LossIntervalsOption (ccid3.receiverLossTracker r) (dccp.ph_AckNo ph))) in
  (dccp.ph_AckNo ph = ccid3.gsr r -> returned (ccid3.OnWrite ph r) = true) /\
  (forall opts r' log,
     ccid3.OnWrite ph r = Done opts r' log ->
     opts = [opts0; opts1; opts2] /\
     List.length opts = 3%nat /\
     log = (harness.warn_if_nil opts0 "ElapsedTime option encoding == nil" ++
            harness.warn_if_nil opts1 "ReceiveRate option encoding == nil" ++
            harness.warn_if_nil opts2 "LossIntervals option encoding == nil" ++
            [dccp.LogE dccp.EventInfo "Placed 3 receiver opts"])%list).
Proof.
  destruct r as [e rc l o lw la d ll g gt lc cc], ph as [ty sq ak cv tm].
  cbn [ccid3.open ccid3.gsr dccp.ph_Type dccp.ph_Time dccp.ph_AckNo].
  intros -> Hty Hg. unfold harness.warn_if_nil.
  destruct Hty as [-> | ->]; go_run;
    destruct (ccid3.rte_RTT e tm) as [rtt est]; cbn [fst]; go_run;
    (destruct (Z.gtb_spec g 0); [| lia]);
    (destruct (Z.eqb_spec g 0); [lia |]);
    destruct (ccid3.rc_Flush rc rtt tm) as [rc' rate] eqn:Hflush; cbn [snd];
    split.
  all: try (intros ->; rewrite Z.eqb_refl; go_options Hflush; reflexivity).
  all: intros opts r' log;
       (destruct (Z.eqb_spec ak g); [subst ak | discriminate]);
       go_options Hflush;
       cbn; intros Hrun; injection Hrun as <- <- <-; repeat split.
Qed.

End ReceiverFacts.

(** ** The receiver on the test double *)

(** The states of the examples, spelled out. *)
Example scripted_opened :
  scripted.opened =
    ccid3.mkReceiver (C := scripted.E) tt 0 [4294967295; 50; 100; 90] true
      0 0 false 4294967295 0 0 0 0.
Proof. reflexivity. Qed.

Example scripted_after_feedback :
  scripted.after_feedback =
    ccid3.mkReceiver (C := scripted.E) tt 1 [100; 90] true
      2000 2000 false 50 8 3000 0 0.
Proof. reflexivity. Qed.

Example scripted_drained :
  scripted.drained =
    ccid3.mkReceiver (C := scripted.E) tt 3 [] true
      2000 2000 false 50 10 5000 0 0.
Proof. reflexivity. Qed.

(** Window counter: a jump of 4 asks for an Ack, a jump of 3 does not. *)
Example window_counter_jump :
  (exists r' log,
     ccid3.OnRead (scripted.packet dccp.Data 9 4 4000) scripted.after_feedback
       = Done (Some dccp.CongestionAck) r' log) /\
  (exists r' log,
     ccid3.OnRead (scripted.packet dccp.Data 9 3 4000) scripted.after_feedback
       = Done None r' log).
Proof. split; do 2 eexists; reflexivity. Qed.

(** C1, refuted as stated: with [gsr = 8] an Ack whose [AckNo] is 7 gets no
    options back, the call panics. *)
Lemma OnWrite_ack_mismatch_panics :
  ccid3.open scripted.after_feedback = true /\
  ccid3.gsr scripted.after_feedback = 8 /\
  dccp.ph_Type (scripted.ack 7 5000) = dccp.Ack /\
  exists r',
    ccid3.OnWrite (scripted.ack 7 5000) scripted.after_feedback
      = Panicked "ccid3 receiver: GSR != AckNo" r' [].
Proof. repeat split. eexists. reflexivity. Qed.

Lemma OnWrite_ack_three_options_witness :
  ccid3.open scripted.after_feedback = true /\
  (dccp.ph_Type (scripted.ack 8 5000) = dccp.Ack \/
   dccp.ph_Type (scripted.ack 8 5000) = dccp.DataAck) /\
  exists r' log,
    ccid3.OnWrite (scripted.ack 8 5000) scripted.after_feedback
      = Done [Some (dccp.mkOption 43 [0]); Some (dccp.mkOption 194 [1]);
              Some (dccp.mkOption 193 [100])] r' log.
Proof.
  split; [reflexivity |]. split; [left; reflexivity |].
  exact (proj1 (OnWrite_ack_three_options (C := scripted.E)
                  scripted.after_feedback (scripted.ack 8 5000)
                  eq_refl (or_introl eq_refl))
               eq_refl eq_refl).
Defined.

(** C2, refuted as stated: with [gsr = 0] an Ack carries no option, neither
    ReceiveRate nor LossIntervals, and what is logged is an Info event. *)
Lemma OnWrite_ack_gsr_zero_no_options :
  ccid3.open scripted.opened = true /\
  ccid3.gsr scripted.opened = 0 /\
  dccp.ph_Type (scripted.ack 0 500) = dccp.Ack /\
  exists r',
    ccid3.OnWrite (scripted.ack 0 500) scripted.opened
      = Done [] r' [dccp.LogE dccp.EventInfo "OnWrite, not seen packs before"].
Proof. repeat split. eexists. reflexivity. Qed.

Lemma OnWrite_ack_gsr_zero_witness :
  ccid3.open scripted.opened = true /\
  (dccp.ph_Type (scripted.ack 0 500) = dccp.Ack \/
   dccp.ph_Type (scripted.ack 0 500) = dccp.DataAck) /\
  ccid3.gsr scripted.opened = 0 /\
  exists r',
    ccid3.OnWrite (scripted.ack 0 500) scripted.opened
      = Done [] r' [dccp.LogE dccp.EventInfo "OnWrite, not seen packs before"] /\
    ccid3.receiverRateCalculator r' = ccid3.receiverRateCalculator scripted.opened /\
    ccid3.lastAck r' = 500 /\
    ccid3.dataSinceAck r' = false.
Proof.
  split; [reflexivity |]. split; [left; reflexivity |]. split; [reflexivity |].
  exact (OnWrite_ack_gsr_zero (C := scripted.E) scripted.opened
           (scripted.ack 0 500) eq_refl (or_introl eq_refl) eq_refl).
Defined.

(** C3, refuted as stated: the last Ack carried 50; the inverse rate then
    rose to 100 and now falls to 90 across one [OnRead] of an Ack packet.
    It has decreased, yet [OnRead] returns nil, because 90 is not below
    50. *)
Lemma OnRead_decrease_without_signal :
  ccid3.open scripted.after_feedback = true /\
  ccid3.lastLossEventRateInv scripted.after_feedback = 50 /\
  ccid3.lt_LossEventRateInv (ccid3.receiverLossTracker scripted.after_feedback) = 100 /\
  exists r' log,
    ccid3.OnRead (scripted.packet dccp.Ack 9 0 4000) scripted.after_feedback
      = Done None r' log /\
    ccid3.lt_LossEventRateInv (ccid3.receiverLossTracker r') = 90.
Proof. repeat split. do 2 eexists. split; reflexivity. Qed.

Lemma OnRead_feedback_condition_II_witness :
  ccid3.open scripted.opened = true /\
  exists v r' log,
    ccid3.OnRead (scripted.packet dccp.Ack 7 0 1000) scripted.opened
      = Done v r' log /\
    ccid3.lastLossEventRateInv r' = ccid3.lastLossEventRateInv scripted.opened /\
    (ccid3.lt_LossEventRateInv (ccid3.receiverLossTracker r')
       < ccid3.lastLossEventRateInv scripted.opened ->
     v = Some dccp.CongestionAck) /\
    (ccid3.lt_LossEventRateInv (ccid3.receiverLossTracker scripted.opened)
       <= ccid3.lastLossEventRateInv scripted.opened ->
     ccid3.lt_LossEventRateInv (ccid3.receiverLossTracker r')
       < ccid3.lt_LossEventRateInv (ccid3.receiverLossTracker scripted.opened) ->
     v = Some dccp.CongestionAck).
Proof.
  split; [reflexivity |].
  exact (OnRead_feedback_condition_II (C := scripted.E) scripted.opened
           (scripted.packet dccp.Ack 7 0 1000) eq_refl).
Defined.

(** C4, refuted as stated: an Ack packet, and a Data packet whose window
    counter has not moved, both draw [CongestionAck] from a receiver whose
    inverse loss event rate has fallen below the one it last sent. *)
Lemma OnRead_signal_without_window_jump :
  ccid3.open scripted.opened = true /\
  ccid3.lastCCVal scripted.opened = 0 /\
  (exists r' log,
     ccid3.OnRead (scripted.packet dccp.Ack 7 0 1000) scripted.opened
       = Done (Some dccp.CongestionAck) r' log) /\
  (exists r' log,
     ccid3.OnRead (scripted.packet dccp.Data 7 0 1000) scripted.opened
       = Done (Some dccp.CongestionAck) r' log) /\
  (0 - ccid3.lastCCVal scripted.opened) mod 16 = 0.
Proof. repeat split; do 2 eexists; reflexivity. Qed.

Lemma OnRead_signal_iff_witness :
  ccid3.open scripted.after_feedback = true /\
  exists v r' log,
    ccid3.OnRead (scripted.packet dccp.Data 9 4 4000) scripted.after_feedback
      = Done v r' log /\
    (v = Some dccp.CongestionAck \/ v = None) /\
    (v = Some dccp.CongestionAck <->
       ccid3.lt_LossEventRateInv (ccid3.receiverLossTracker r')
         < ccid3.lastLossEventRateInv scripted.after_feedback
       \/ ((dccp.ff_Type (scripted.packet dccp.Data 9 4 4000) = dccp.Data \/
            dccp.ff_Type (scripted.packet dccp.Data 9 4 4000) = dccp.DataAck) /\
           (dccp.ff_CCVal (scripted.packet dccp.Data 9 4 4000)
              - ccid3.lastCCVal scripted.after_feedback) mod 16 >= 4)).
Proof.
  split; [reflexivity |].
  exact (OnRead_signal_iff (C := scripted.E) scripted.after_feedback
           (scripted.packet dccp.Data 9 4 4000) eq_refl).
Defined.

Lemma OnIdle_feedback_condition_I_witness :
  ccid3.open
    (ccid3.set_dataSinceAck true scripted.after_feedback) = true /\
  ccid3.OnIdle (2000 + scripted.stub_rtt + 1)
    (ccid3.set_dataSinceAck true scripted.after_feedback)
    = Done (Some dccp.CongestionAck)
        (ccid3.set_dataSinceAck true scripted.after_feedback) [] /\
  ccid3.OnIdle (2000 + scripted.stub_rtt)
    (ccid3.set_dataSinceAck true scripted.after_feedback)
    = Done None (ccid3.set_dataSinceAck true scripted.after_feedback) [].
Proof.
  split; [reflexivity |]. split.
  - exact (proj1 (OnIdle_feedback_condition_I (C := scripted.E)
                    (ccid3.set_dataSinceAck true scripted.after_feedback)
                    (2000 + scripted.stub_rtt + 1) eq_refl)
                 eq_refl eq_refl).
  - apply (proj2 (OnIdle_feedback_condition_I (C := scripted.E)
                    (ccid3.set_dataSinceAck true scripted.after_feedback)
                    (2000 + scripted.stub_rtt) eq_refl)).
    right. vm_compute. discriminate.
Defined.

Lemma OnRead_gsr_witness :
  ccid3.open scripted.after_feedback = true /\
  exists v r' log,
    ccid3.OnRead (scripted.packet dccp.Sync 9 0 4000) scripted.after_feedback
      = Done v r' log /\
    ccid3.gsr scripted.after_feedback <= ccid3.gsr r' /\
    (dccp.ff_SeqNo (scripted.packet dccp.Sync 9 0 4000)
       > ccid3.gsr scripted.after_feedback ->
     ccid3.gsr r' = 9 /\ ccid3.gsrTimestamp r' = 4000) /\
    (dccp.ff_SeqNo (scripted.packet dccp.Sync 9 0 4000)
       <= ccid3.gsr scripted.after_feedback ->
     ccid3.gsr r' = ccid3.gsr scripted.after_feedback /\
     ccid3.gsrTimestamp r' = ccid3.gsrTimestamp scripted.after_feedback).
Proof.
  split; [reflexivity |].
  exact (OnRead_gsr (C := scripted.E) scripted.after_feedback
           (scripted.packet dccp.Sync 9 0 4000) eq_refl).
Defined.

(** C7, refuted as stated: [OnWrite] on a receiver that was never opened
    returns no options but moves [lastWrite] from 0 to the packet's time. *)
Lemma OnWrite_closed_records_lastWrite :
  ccid3.open scripted.fresh = false /\
  ccid3.lastWrite scripted.fresh = 0 /\
  ccid3.OnWrite (scripted.ack 0 7) scripted.fresh
    = Done [] (ccid3.set_lastWrite 7 scripted.fresh) [] /\
  ccid3.lastWrite (ccid3.set_lastWrite 7 scripted.fresh) = 7 /\
  ccid3.set_lastWrite 7 scripted.fresh <> scripted.fresh.
Proof. repeat split. discriminate. Qed.

Lemma closed_receiver_operations_witness :
  ccid3.open scripted.fresh = false /\
  (forall ff, ccid3.OnRead ff scripted.fresh = Done None scripted.fresh []) /\
  (forall now, ccid3.OnIdle now scripted.fresh = Done None scripted.fresh []) /\
  (forall ph,
     ccid3.OnWrite ph scripted.fresh
       = Done [] (ccid3.set_lastWrite (dccp.ph_Time ph) scripted.fresh) []) /\
  ccid3.Close scripted.fresh = Done tt scripted.fresh [] /\
  (exists r',
     ccid3.Open scripted.fresh = Done tt r' [] /\ ccid3.open r' = true /\
     ccid3.Open r' = Panicked "opening an open ccid3 receiver" r' []).
Proof.
  split; [reflexivity |].
  exact (closed_receiver_operations (C := scripted.E) scripted.fresh eq_refl).
Defined.

(** A caller does get a nil entry: once the script has run out the test
    double has no loss intervals to report, and the third slot is nil. *)
Lemma OnWrite_ack_raw_options_witness :
  ccid3.open scripted.drained = true /\
  (dccp.ph_Type (scripted.ack 10 6000) = dccp.Ack \/
   dccp.ph_Type (scripted.ack 10 6000) = dccp.DataAck) /\
  ccid3.gsr scripted.drained > 0 /\
  returned (ccid3.OnWrite (scripted.ack 10 6000) scripted.drained) = true /\
  forall opts r' log,
    ccid3.OnWrite (scripted.ack 10 6000) scripted.drained = Done opts r' log ->
    opts = [Some (dccp.mkOption 43 [0]); Some (dccp.mkOption 194 [3]); None] /\
    List.length opts = 3%nat /\
    log = [dccp.LogE dccp.EventWarn "LossIntervals option encoding == nil";
           dccp.LogE dccp.EventInfo "Placed 3 receiver opts"].
Proof.
  split; [reflexivity |]. split; [left; reflexivity |]. split; [reflexivity |].
  pose proof (OnWrite_ack_raw_options (C := scripted.E) scripted.drained
                (scripted.ack 10 6000) eq_refl (or_introl eq_refl) eq_refl)
    as [Hret Hraw].
  split; [exact (Hret eq_refl) | exact Hraw].
Defined.

(** ** Teardown of a connection *)

Ltac conn_run :=
  cbv [dccp_conn.abort dccp_conn.kill dccp_conn.teardownUser
       dccp_conn.teardownWriteLoop dccp_conn.Lock dccp_conn.Unlock
       dccp_conn.SetState dccp_conn.generateReset dccp_conn.inject
       dccp_conn.close dccp_conn.conn
       bind gets modify emit ret when panic block negb
       dccp_conn.set_lk dccp_conn.set_socket dccp_conn.set_readApp
       dccp_conn.set_writeData dccp_conn.set_writeNonData
       dccp_conn.lk dccp_conn.c_socket dccp_conn.readApp dccp_conn.writeData
       dccp_conn.writeNonData dccp_conn.ch_buf dccp_conn.ch_closed
       dccp_conn.sk_State dccp_conn.sk_ISS dccp_conn.sk_ISR dccp_conn.sk_GSR
       dccp_conn.sk_GAR].

(** A closed channel cannot be closed again. *)
Lemma teardownUser_closed_panics (c : dccp_conn.Conn) :
  dccp_conn.ch_closed (dccp_conn.readApp c) = true ->
  dccp_conn.teardownUser c = Panicked "close of closed channel" c [].
Proof.
  destruct c as [l k [ra ra_closed] wd wn]; cbn [dccp_conn.readApp dccp_conn.ch_closed].
  intros ->. reflexivity.
Qed.

(** C8: on a connection whose mutex is free and whose channels are open,
    [abort] takes its steps in this order: lock, set the socket state to
    CLOSED (the mutex held), unlock, inject a Reset with Reset Code 2, close
    [readApp], close [writeData], close [writeNonData].  The Reset is at the
    end of the [writeNonData] buffer when that channel is closed. *)
Theorem abort_order (c : dccp_conn.Conn) :
  dccp_conn.lk c = false ->
  dccp_conn.ch_closed (dccp_conn.readApp c) = false ->
  dccp_conn.ch_closed (dccp_conn.writeData c) = false ->
  dccp_conn.ch_closed (dccp_conn.writeNonData c) = false ->
  let reset := dccp_conn.mkHeader dccp.Reset 2 in
  exists c',
    dccp_conn.abort c =
      Done tt c'
        [dccp_conn.StLock; dccp_conn.StSetState dccp.CLOSED true;
         dccp_conn.StUnlock; dccp_conn.StInject reset;
         dccp_conn.StClose dccp_conn.ReadApp;
         dccp_conn.StClose dccp_conn.WriteData;
         dccp_conn.StClose dccp_conn.WriteNonData] /\
    dccp_conn.lk c' = false /\
    dccp_conn.sk_State (dccp_conn.c_socket c') = dccp.CLOSED /\
    dccp_conn.readApp c' =
      dccp_conn.mkChan (dccp_conn.ch_buf (dccp_conn.readApp c)) true /\
    dccp_conn.writeData c' =
      dccp_conn.mkChan (dccp_conn.ch_buf (dccp_conn.writeData c)) true /\
    dccp_conn.writeNonData c' =
      dccp_conn.mkChan (dccp_conn.ch_buf (dccp_conn.writeNonData c) ++ [reset]) true.
Proof.
  destruct c as [l k [ra ra_closed] [wd wd_closed] [wn wn_closed]].
  cbn [dccp_conn.lk dccp_conn.readApp dccp_conn.writeData
       dccp_conn.writeNonData dccp_conn.ch_closed dccp_conn.ch_buf].
  intros -> -> -> ->. eexists. conn_run. repeat split.
Qed.

Lemma abort_order_witness :
  dccp_conn.lk (dccp_conn.live dccp.OPEN) = false /\
  dccp_conn.ch_closed (dccp_conn.readApp (dccp_conn.live dccp.OPEN)) = false /\
  dccp_conn.ch_closed (dccp_conn.writeData (dccp_conn.live dccp.OPEN)) = false /\
  dccp_conn.ch_closed (dccp_conn.writeNonData (dccp_conn.live dccp.OPEN)) = false /\
  exists c',
    dccp_conn.abort (dccp_conn.live dccp.OPEN) =
      Done tt c'
        [dccp_conn.StLock; dccp_conn.StSetState dccp.CLOSED true;
         dccp_conn.StUnlock;
         dccp_conn.StInject (dccp_conn.mkHeader dccp.Reset 2);
         dccp_conn.StClose dccp_conn.ReadApp;
         dccp_conn.StClose dccp_conn.WriteData;
         dccp_conn.StClose dccp_conn.WriteNonData] /\
    dccp_conn.lk c' = false /\
    dccp_conn.sk_State (dccp_conn.c_socket c') = dccp.CLOSED /\
    dccp_conn.readApp c' = dccp_conn.mkChan [] true /\
    dccp_conn.writeData c' = dccp_conn.mkChan [] true /\
    dccp_conn.writeNonData c' =
      dccp_conn.mkChan [dccp_conn.mkHeader dccp.Reset 2] true.
Proof.
  repeat (split; [reflexivity |]).
  exact (abort_order (dccp_conn.live dccp.OPEN) eq_refl eq_refl eq_refl eq_refl).
Defined.

(** [kill] is [abort] without the Reset. *)
Lemma kill_order (c : dccp_conn.Conn) :
  dccp_conn.lk c = false ->
  dccp_conn.ch_closed (dccp_conn.readApp c) = false ->
  dccp_conn.ch_closed (dccp_conn.writeData c) = false ->
  dccp_conn.ch_closed (dccp_conn.writeNonData c) = false ->
  exists c',
    dccp_conn.kill c =
      Done tt c'
        [dccp_conn.StLock; dccp_conn.StSetState dccp.CLOSED true;
         dccp_conn.StUnlock;
         dccp_conn.StClose dccp_conn.ReadApp;
         dccp_conn.StClose dccp_conn.WriteData;
         dccp_conn.StClose dccp_conn.WriteNonData] /\
    dccp_conn.ch_closed (dccp_conn.readApp c') = true /\
    dccp_conn.writeNonData c' =
      dccp_conn.mkChan (dccp_conn.ch_buf (dccp_conn.writeNonData c)) true.
Proof.
  destruct c as [l k [ra ra_closed] [wd wd_closed] [wn wn_closed]].
  cbn [dccp_conn.lk dccp_conn.readApp dccp_conn.writeData
       dccp_conn.writeNonData dccp_conn.ch_closed dccp_conn.ch_buf].
  intros -> -> -> ->. eexists. conn_run. repeat split.
Qed.

(** [kill] on a connection whose [readApp] is already closed panics, with
    no channel closed. *)
Lemma kill_torn_down_panics (c : dccp_conn.Conn) :
  dccp_conn.lk c = false ->
  dccp_conn.ch_closed (dccp_conn.readApp c) = true ->
  exists c',
    dccp_conn.kill c =
      Panicked "close of closed channel" c'
        [dccp_conn.StLock; dccp_conn.StSetState dccp.CLOSED true;
         dccp_conn.StUnlock].
Proof.
  destruct c as [l k [ra ra_closed] wd wn].
  cbn [dccp_conn.lk dccp_conn.readApp dccp_conn.ch_closed].
  intros -> ->. eexists. reflexivity.
Qed.

(** What is left of [abort] and [kill] after the Reset: on a connection
    whose [readApp] is closed it panics at [close(c.readApp)], before
    anything else is closed. *)
Lemma teardown_tail_panics (c : dccp_conn.Conn) :
  dccp_conn.ch_closed (dccp_conn.readApp c) = true ->
  (dccp_conn.teardownUser ;; dccp_conn.teardownWriteLoop) c
    = Panicked "close of closed channel" c [].
Proof.
  destruct c as [l k [ra ra_closed] wd wn];
    cbn [dccp_conn.readApp dccp_conn.ch_closed].
  intros ->. reflexivity.
Qed.

(** Two teardown calls in a row on a fresh connection, in each of the four
    orders: the second call panics every time. *)
Example teardown_twice_on_live :
  (exists c' tr,
     (dccp_conn.abort ;; dccp_conn.abort) (dccp_conn.live dccp.OPEN)
       = Panicked "send on closed channel" c' tr) /\
  (exists c' tr,
     (dccp_conn.kill ;; dccp_conn.abort) (dccp_conn.live dccp.OPEN)
       = Panicked "send on closed channel" c' tr) /\
  (exists c' tr,
     (dccp_conn.kill ;; dccp_conn.kill) (dccp_conn.live dccp.OPEN)
       = Panicked "close of closed channel" c' tr) /\
  (exists c' tr,
     (dccp_conn.abort ;; dccp_conn.kill) (dccp_conn.live dccp.OPEN)
       = Panicked "close of closed channel" c' tr).
Proof. repeat split; do 2 eexists; reflexivity. Qed.

(** C9 (the code at the failing input): take a connection whose mutex is
    free and whose three channels are open, and tear it down twice, each
    time by [abort] or by [kill].  The first call returns and closes each
    of [readApp], [writeData] and [writeNonData] once.  The second call
    panics, in all four orders: [teardownUser] has no guard and runs
    [close(c.readApp)] on the closed channel.  No channel is closed a second
    time, because the panic comes first. *)
Theorem teardown_twice_panics (c : dccp_conn.Conn)
    (first second : dccp_conn.conn unit) :
  dccp_conn.lk c = false ->
  dccp_conn.ch_closed (dccp_conn.readApp c) = false ->
  dccp_conn.ch_closed (dccp_conn.writeData c) = false ->
  dccp_conn.ch_closed (dccp_conn.writeNonData c) = false ->
  first = dccp_conn.abort \/ first = dccp_conn.kill ->
  second = dccp_conn.abort \/ second = dccp_conn.kill ->
  exists c1 tr1,
    first c = Done tt c1 tr1 /\
    (forall id, dccp_conn.closes id tr1 = 1%nat) /\
    dccp_conn.teardownUser c1 = Panicked "close of closed channel" c1 [] /\
    (dccp_conn.teardownUser ;; dccp_conn.teardownWriteLoop) c1
      = Panicked "close of closed channel" c1 [] /\
    panicked (second c1) = true /\
    panicked ((first ;; second) c) = true /\
    (forall id, dccp_conn.closes id (trace_of (second c1)) = 0%nat) /\
    (forall id, dccp_conn.closes id (trace_of ((first ;; second) c)) = 1%nat).
Proof.
  destruct c as [l k [ra ra_closed] [wd wd_closed] [wn wn_closed]].
  cbn [dccp_conn.lk dccp_conn.readApp dccp_conn.writeData
       dccp_conn.writeNonData dccp_conn.ch_closed dccp_conn.ch_buf].
  intros -> -> -> -> [-> | ->] [-> | ->];
    do 2 eexists; conn_run;
    (split; [reflexivity |]);
    repeat split; intros []; reflexivity.
Qed.

Lemma teardown_twice_panics_witness :
  dccp_conn.lk (dccp_conn.live dccp.OPEN) = false /\
  dccp_conn.ch_closed (dccp_conn.readApp (dccp_conn.live dccp.OPEN)) = false /\
  dccp_conn.ch_closed (dccp_conn.writeData (dccp_conn.live dccp.OPEN)) = false /\
  dccp_conn.ch_closed (dccp_conn.writeNonData (dccp_conn.live dccp.OPEN)) = false /\
  (dccp_conn.kill = dccp_conn.abort \/ dccp_conn.kill = dccp_conn.kill) /\
  exists c1 tr1,
    dccp_conn.kill (dccp_conn.live dccp.OPEN) = Done tt c1 tr1 /\
    (forall id, dccp_conn.closes id tr1 = 1%nat) /\
    dccp_conn.teardownUser c1 = Panicked "close of closed channel" c1 [] /\
    (dccp_conn.teardownUser ;; dccp_conn.teardownWriteLoop) c1
      = Panicked "close of closed channel" c1 [] /\
    panicked (dccp_conn.kill c1) = true /\
    panicked ((dccp_conn.kill ;; dccp_conn.kill) (dccp_conn.live dccp.OPEN)) = true /\
    (forall id, dccp_conn.closes id (trace_of (dccp_conn.kill c1)) = 0%nat) /\
    (forall id,
       dccp_conn.closes id
         (trace_of ((dccp_conn.kill ;; dccp_conn.kill) (dccp_conn.live dccp.OPEN)))
       = 1%nat).
Proof.
  repeat (split; [reflexivity |]). split; [right; reflexivity |].
  exact (teardown_twice_panics (dccp_conn.live dccp.OPEN)
           eq_refl eq_refl eq_refl eq_refl
           (or_intror eq_refl) (or_intror eq_refl)).
Defined.

(** * Further properties of the receiver *)

Section ReceiverMore.
Context {C : ccid3.Collaborators}.
Implicit Types (r : ccid3.receiver) (ff : dccp.FeedforwardHeader)
  (ph : dccp.PreHeader).

Lemma isAckOrDataAck_spec (t : dccp.PacketType) :
  harness.isAckOrDataAck t = true <-> t = dccp.Ack \/ t = dccp.DataAck.
Proof.
  destruct t; cbn; split; intros H; try reflexivity; try discriminate;
    try (now left); try (now right); destruct H; discriminate.
Qed.

(** X1: what an Ack or DataAck writes into an open receiver, whether the
    call returns or panics: [lastWrite] and [lastAck] are the packet's time,
    [dataSinceAck] is cleared, [lastLossEventRateInv] is the loss tracker's
    current value and [lastCCVal] the latest window counter; [open], [gsr],
    [gsrTimestamp], [latestCCVal], the estimator and the loss tracker are
    left alone. *)
Theorem OnWrite_ack_side_effects r ph :
  ccid3.open r = true ->
  dccp.ph_Type ph = dccp.Ack \/ dccp.ph_Type ph = dccp.DataAck ->
  let r' := state_of (ccid3.OnWrite ph r) in
  ccid3.lastWrite r' = dccp.ph_Time ph /\
  ccid3.lastAck r' = dccp.ph_Time ph /\
  ccid3.dataSinceAck r' = false /\
  ccid3.lastLossEventRateInv r'
    = ccid3.lt_LossEventRateInv (ccid3.receiverLossTracker r) /\
  ccid3.lastCCVal r' = ccid3.latestCCVal r /\
  ccid3.open r' = true /\
  ccid3.gsr r' = ccid3.gsr r /\
  ccid3.gsrTimestamp r' = ccid3.gsrTimestamp r /\
  ccid3.latestCCVal r' = ccid3.latestCCVal r /\
  ccid3.receiverRoundtripEstimator r' = ccid3.receiverRoundtripEstimator r /\
  ccid3.receiverLossTracker r' = ccid3.receiverLossTracker r.
Proof.
  destruct r as [e rc l o lw la d ll g gt lc cc], ph as [ty sq ak cv tm].
  cbn [ccid3.open dccp.ph_Type]. intros -> Hty.
  destruct Hty as [-> | ->]; go_run;
    destruct (ccid3.rte_RTT e tm) as [rtt est]; go_run;
    destruct (ccid3.rc_Flush rc rtt tm) as [rc' rate] eqn:Hflush;
    destruct (g >? 0); go_run;
    try (destruct (g =? 0); go_run);
    try (destruct (ak =? g); go_run);
    try go_options Hflush;
    cbn; repeat split.
Qed.

(** X2: a packet that is neither an Ack nor a DataAck gets no options from
    an open receiver; the call records [lastWrite] and nothing else, so a
    Data packet does not clear [dataSinceAck]. *)
Theorem OnWrite_not_ack r ph :
  ccid3.open r = true ->
  harness.isAckOrDataAck (dccp.ph_Type ph) = false ->
  ccid3.OnWrite ph r = Done [] (ccid3.set_lastWrite (dccp.ph_Time ph) r) [].
Proof.
  destruct r as [e rc l o lw la d ll g gt lc cc], ph as [ty sq ak cv tm].
  cbn [ccid3.open dccp.ph_Type]. intros -> Hty.
  destruct ty; try discriminate Hty; go_run;
    destruct (ccid3.rte_RTT e tm) as [rtt est]; reflexivity.
Qed.

(** X3: on an open receiver an Ack or DataAck flushes the rate calculator
    exactly when the call returns options: with [gsr > 0] and a call that
    returns, the calculator is the one [Flush(rtt, ph.Time)] leaves; when
    [gsr <= 0] or the call panics it is untouched. *)
Theorem OnWrite_ack_flush r ph :
  ccid3.open r = true ->
  dccp.ph_Type ph = dccp.Ack \/ dccp.ph_Type ph = dccp.DataAck ->
  let now := dccp.ph_Time ph in
  let rtt := fst (ccid3.rte_RTT (ccid3.receiverRoundtripEstimator r) now) in
  let o := ccid3.OnWrite ph r in
  ccid3.receiverRateCalculator (state_of o) =
    if returned o && (ccid3.gsr r >? 0)
    then fst (ccid3.rc_Flush (ccid3.receiverRateCalculator r) rtt now)
    else ccid3.receiverRateCalculator r.
Proof.
  destruct r as [e rc l o lw la d ll g gt lc cc], ph as [ty sq ak cv tm].
  cbn [ccid3.open dccp.ph_Type]. intros -> Hty.
  destruct Hty as [-> | ->]; go_run;
    destruct (ccid3.rte_RTT e tm) as [rtt est]; cbn [fst]; go_run;
    destruct (ccid3.rc_Flush rc rtt tm) as [rc' rate] eqn:Hflush; cbn [fst];
    destruct (g >? 0); go_run;
    try (destruct (g =? 0); go_run);
    try (destruct (ak =? g); go_run);
    try go_options Hflush;
    reflexivity.
Qed.

(** X4: [OnWrite] panics in one case only: the receiver is open, the packet
    is an Ack or DataAck, [gsr > 0] and [ph.AckNo != gsr].  In every other
    case it returns. *)
Theorem OnWrite_panics_iff r ph :
  (panicked (ccid3.OnWrite ph r) = true <->
     ccid3.open r = true /\
     harness.isAckOrDataAck (dccp.ph_Type ph) = true /\
     ccid3.gsr r > 0 /\ dccp.ph_AckNo ph <> ccid3.gsr r) /\
  (panicked (ccid3.OnWrite ph r) = false ->
     returned (ccid3.OnWrite ph r) = true).
Proof.
  destruct r as [e rc l o lw la d ll g gt lc cc], ph as [ty sq ak cv tm].
  cbn [ccid3.open ccid3.gsr dccp.ph_Type dccp.ph_AckNo].
  destruct o; destruct ty; go_run;
    destruct (ccid3.rte_RTT e tm) as [rtt est]; go_run;
    cbn [harness.isAckOrDataAck dccp.PacketType_eqb orb];
    try (split; [split; [discriminate | intros (? & ? & _); discriminate]
                | reflexivity ]).
  all: destruct (ccid3.rc_Flush rc rtt tm) as [rc' rate] eqn:Hflush;
       destruct (Z.gtb_spec g 0); go_run;
       try (destruct (Z.eqb_spec g 0); [lia |]; go_run);
       try (destruct (Z.eqb_spec ak g); go_run);
       try go_options Hflush;
       cbn [panicked returned];
       (split; [split; [ first [ discriminate | intros _; repeat split; lia
                               | intros _; repeat split; [lia | assumption] ]
                       | first [ reflexivity | intros (_ & _ & ? & ?); lia
                               | intros (_ & _ & ? & ?); contradiction ] ]
               | first [ reflexivity | discriminate ] ]).
Qed.

(** X5: [OnRead] returns for every receiver and every packet, and what it
    returns is nil or [CongestionAck]: this receiver never asks for a packet
    to be dropped. *)
Theorem OnRead_never_drops r ff :
  exists v r' log,
    ccid3.OnRead ff r = Done v r' log /\
    (v = None \/ v = Some dccp.CongestionAck).
Proof.
  destruct r as [e rc l o lw la d ll g gt lc cc], ff as [ty sq cv tm opts].
  destruct o; go_run; [| do 3 eexists; split; [reflexivity | now left]].
  destruct (sq >? g); destruct (ccid3.isDataOrDataAck ty); go_run;
    destruct (ccid3.rte_RTT _ _) as [rtt est]; go_run;
    destruct (_ <? _); try destruct (_ >=? _);
    do 3 eexists; (split; [reflexivity | auto]).
Qed.

(** X6: [OnIdle] only reads: for every receiver and every time it returns
    nil or [CongestionAck], leaves the receiver as it was and logs nothing. *)
Theorem OnIdle_reads_only r now :
  exists v,
    ccid3.OnIdle now r = Done v r [] /\
    (v = None \/ v = Some dccp.CongestionAck).
Proof.
  destruct r as [e rc l o lw la d ll g gt lc cc].
  destruct o; go_run; [| eexists; split; [reflexivity | now left]].
  destruct (ccid3.rte_RTT e now) as [rtt est]; go_run.
  destruct (d && (sub64 now lw >? rtt));
    eexists; (split; [reflexivity | auto]).
Qed.

(** One [OnRead] on an open receiver, as far as the runs below need it. *)
Lemma OnRead_open_step r ff :
  ccid3.open r = true ->
  exists v r' log,
    ccid3.OnRead ff r = Done v r' log /\
    ccid3.open r' = true /\
    ccid3.gsr r' = Z.max (ccid3.gsr r) (dccp.ff_SeqNo ff) /\
    ccid3.gsrTimestamp r' =
      (if dccp.ff_SeqNo ff >? ccid3.gsr r then dccp.ff_Time ff
       else ccid3.gsrTimestamp r) /\
    ccid3.dataSinceAck r' =
      ccid3.dataSinceAck r || ccid3.isDataOrDataAck (dccp.ff_Type ff).
Proof.
  destruct r as [e rc l o lw la d ll g gt lc cc], ff as [ty sq cv tm opts].
  cbn [ccid3.open]; intros ->. go_run.
  destruct (Z.gtb_spec sq g); destruct (ccid3.isDataOrDataAck ty); go_run;
    destruct (ccid3.rte_RTT _ _) as [rtt est]; go_run;
    destruct (_ <? _); try destruct (_ >=? _);
    do 3 eexists; (split; [reflexivity |]); cbn;
    repeat split; try lia; destruct d; reflexivity.
Qed.

(** X7: what one [OnRead] does to an open receiver.  The estimator sees the
    packet first, and the loss tracker is given the round-trip estimate made
    after that; each of the three sub-modules sees the packet once.  A Data
    or DataAck sets [dataSinceAck] and [latestCCVal], other packets leave
    them; [lastWrite], [lastAck], [lastLossEventRateInv] and [lastCCVal] are
    never touched by a read.  Two Info events are logged. *)
Theorem OnRead_effects r ff :
  ccid3.open r = true ->
  let e' := ccid3.rte_OnRead (ccid3.receiverRoundtripEstimator r) ff in
  let rtt := fst (ccid3.rte_RTT e' (dccp.ff_Time ff)) in
  let est := snd (ccid3.rte_RTT e' (dccp.ff_Time ff)) in
  let data := ccid3.isDataOrDataAck (dccp.ff_Type ff) in
  exists v r',
    ccid3.OnRead ff r =
      Done v r'
        [dccp.LogE dccp.EventInfo (ccid3.rte_String e');
         dccp.LogE dccp.EventInfo ("RTT=" ++ ccid3.Nstoa rtt ++ " EST=" ++ btoa est)] /\
    ccid3.receiverRoundtripEstimator r' = e' /\
    ccid3.receiverRateCalculator r'
      = ccid3.rc_OnRead (ccid3.receiverRateCalculator r) ff /\
    ccid3.receiverLossTracker r'
      = ccid3.lt_OnRead (ccid3.receiverLossTracker r) ff rtt /\
    ccid3.dataSinceAck r' = ccid3.dataSinceAck r || data /\
    ccid3.latestCCVal r' = (if data then dccp.ff_CCVal ff else ccid3.latestCCVal r) /\
    ccid3.open r' = true /\
    ccid3.lastWrite r' = ccid3.lastWrite r /\
    ccid3.lastAck r' = ccid3.lastAck r /\
    ccid3.lastLossEventRateInv r' = ccid3.lastLossEventRateInv r /\
    ccid3.lastCCVal r' = ccid3.lastCCVal r.
Proof.
  destruct r as [e rc l o lw la d ll g gt lc cc], ff as [ty sq cv tm opts].
  cbn [ccid3.open]; intros ->. go_run.
  destruct (sq >? g); destruct (ccid3.isDataOrDataAck ty); go_run;
    destruct (ccid3.rte_RTT _ _) as [rtt est]; cbn [fst snd]; go_run;
    destruct (_ <? _); try destruct (_ >=? _);
    do 2 eexists; (split; [reflexivity |]); cbn;
    repeat split; destruct d; reflexivity.
Qed.

(** X8: after any run of [OnRead] calls on an open receiver, [gsr] is the
    greatest of its old value and the sequence numbers read, and
    [gsrTimestamp] goes with it: either both are as before, or they are the
    [SeqNo] and [Time] of one of the packets read. *)
Theorem reads_gsr_greatest (ffs : list dccp.FeedforwardHeader) :
  forall r, ccid3.open r = true ->
  exists r' log,
    harness.reads ffs r = Done tt r' log /\
    ccid3.gsr r' = harness.greatest ffs (ccid3.gsr r) /\
    ((ccid3.gsr r' = ccid3.gsr r /\
      ccid3.gsrTimestamp r' = ccid3.gsrTimestamp r) \/
     exists ff, In ff ffs /\ dccp.ff_SeqNo ff = ccid3.gsr r' /\
                dccp.ff_Time ff = ccid3.gsrTimestamp r').
Proof.
  induction ffs as [| ff rest IH]; intros r Hopen.
  - exists r, []. cbn. repeat split. left. split; reflexivity.
  - destruct (OnRead_open_step r ff Hopen)
      as (v & r1 & log1 & Hrun & Hopen1 & Hgsr & Hts & _).
    destruct (IH r1 Hopen1) as (r2 & log2 & Hrest & Hmax & Hwho).
    exists r2, (log1 ++ log2)%list.
    cbn [harness.reads]. unfold bind at 1. rewrite Hrun, Hrest.
    split; [reflexivity |]. split.
    + rewrite Hmax, Hgsr. reflexivity.
    + destruct Hwho as [[Hg Ht] | (ff' & Hin & Hs & Ht)].
      * rewrite Hg, Ht, Hts.
        destruct (Z.gtb_spec (dccp.ff_SeqNo ff) (ccid3.gsr r)).
        -- right. exists ff. repeat split; [now left | lia].
        -- left. split; [lia | reflexivity].
      * right. exists ff'. repeat split; [now right | assumption | assumption].
Qed.

(** Reading packets that carry no data keeps an open receiver open and
    leaves [dataSinceAck] as it is. *)
Lemma reads_no_data (ffs : list dccp.FeedforwardHeader) :
  forall r, ccid3.open r = true -> harness.no_data ffs = true ->
  exists r' log,
    harness.reads ffs r = Done tt r' log /\
    ccid3.open r' = true /\ ccid3.dataSinceAck r' = ccid3.dataSinceAck r.
Proof.
  induction ffs as [| ff rest IH]; intros r Hopen Hnd.
  - exists r, []. cbn. repeat split. assumption.
  - cbn in Hnd. apply andb_true_iff in Hnd as [Hff Hrest].
    apply negb_true_iff in Hff.
    destruct (OnRead_open_step r ff Hopen)
      as (v & r1 & log1 & Hrun & Hopen1 & _ & _ & Hd).
    rewrite Hff, orb_false_r in Hd.
    destruct (IH r1 Hopen1 Hrest) as (r2 & log2 & Hrun2 & Hopen2 & Hd2).
    exists r2, (log1 ++ log2)%list.
    cbn [harness.reads]. unfold bind at 1. rewrite Hrun, Hrun2.
    repeat split; [assumption | congruence].
Qed.

(** What an Ack or DataAck that returned has left in an open receiver. *)
Lemma OnWrite_ack_returned r ph opts r1 log :
  ccid3.open r = true ->
  dccp.ph_Type ph = dccp.Ack \/ dccp.ph_Type ph = dccp.DataAck ->
  ccid3.OnWrite ph r = Done opts r1 log ->
  ccid3.open r1 = true /\
  ccid3.dataSinceAck r1 = false /\
  ccid3.lastCCVal r1 = ccid3.latestCCVal r /\
  ccid3.lastLossEventRateInv r1
    = ccid3.lt_LossEventRateInv (ccid3.receiverLossTracker r) /\
  ccid3.receiverLossTracker r1 = ccid3.receiverLossTracker r /\
  ccid3.receiverRoundtripEstimator r1 = ccid3.receiverRoundtripEstimator r.
Proof.
  destruct r as [e rc l o lw la d ll g gt lc cc], ph as [ty sq ak cv tm].
  cbn [ccid3.open dccp.ph_Type]. intros -> Hty.
  destruct Hty as [-> | ->]; go_run;
    destruct (ccid3.rte_RTT e tm) as [rtt est]; go_run;
    destruct (ccid3.rc_Flush rc rtt tm) as [rc' rate] eqn:Hflush;
    destruct (g >? 0); go_run;
    try (destruct (g =? 0); go_run);
    try (destruct (ak =? g); go_run);
    try go_options Hflush;
    intros Hrun; try discriminate Hrun;
    injection Hrun as <- <- <-; cbn; repeat split.
Qed.

(** X9: once an Ack or DataAck has been written, [OnIdle] asks for nothing,
    at any time, until a Data or DataAck packet is read: reading any number
    of other packets in between does not change that. *)
Theorem OnIdle_quiet_after_ack r ph opts r1 log
    (ffs : list dccp.FeedforwardHeader) :
  ccid3.open r = true ->
  dccp.ph_Type ph = dccp.Ack \/ dccp.ph_Type ph = dccp.DataAck ->
  ccid3.OnWrite ph r = Done opts r1 log ->
  harness.no_data ffs = true ->
  exists r2 log2,
    harness.reads ffs r1 = Done tt r2 log2 /\
    forall now, ccid3.OnIdle now r2 = Done None r2 [].
Proof.
  intros Hopen Hty Hrun Hnd.
  destruct (OnWrite_ack_returned r ph Hopen Hty Hrun) as (Hopen1 & Hd1 & _).
  destruct (reads_no_data ffs r1 Hopen1 Hnd) as (r2 & log2 & Hrun2 & Hopen2 & Hd2).
  exists r2, log2. split; [assumption |].
  intros now. rewrite (OnIdle_open r2 now Hopen2), Hd2, Hd1. reflexivity.
Qed.

(** When [OnRead] signals, in terms of the fields it compares. *)
Lemma OnRead_signal_cases r ff :
  ccid3.open r = true ->
  exists v r' log,
    ccid3.OnRead ff r = Done v r' log /\
    ccid3.receiverLossTracker r' =
      ccid3.lt_OnRead (ccid3.receiverLossTracker r) ff
        (fst (ccid3.rte_RTT
                (ccid3.rte_OnRead (ccid3.receiverRoundtripEstimator r) ff)
                (dccp.ff_Time ff))) /\
    (v = Some dccp.CongestionAck <->
       ccid3.lt_LossEventRateInv (ccid3.receiverLossTracker r')
         < ccid3.lastLossEventRateInv r
       \/ (ccid3.isDataOrDataAck (dccp.ff_Type ff) = true /\
           (dccp.ff_CCVal ff - ccid3.lastCCVal r) mod 16 >= 4)).
Proof.
  destruct r as [e rc l o lw la d ll g gt lc cc], ff as [ty sq cv tm opts].
  cbn [ccid3.open]; intros ->. go_run.
  unfold ccid3.diffWindowCounter.
  destruct (sq >? g); destruct (ccid3.isDataOrDataAck ty); go_run;
    destruct (ccid3.rte_RTT _ _) as [rtt est]; cbn [fst]; go_run;
    match goal with |- context [?a <? ?b] => destruct (Z.ltb_spec a b) end;
    try match goal with |- context [?a >=? ?b] => destruct (Z.geb_spec a b) end;
    do 3 eexists; (split; [reflexivity |]); cbn;
    (split; [reflexivity |]);
    (split;
     [ intros Hv;
       first [ discriminate Hv | left; lia | right; split; [reflexivity | lia] ]
     | intros [Hlt | [Hdata Hge]];
       first [ reflexivity | lia | discriminate Hdata ] ]).
Qed.

(** X10: the first [OnRead] after an Ack or DataAck has been written signals
    exactly when the loss tracker, fed the packet, reports an inverse loss
    event rate below the one it reported when the Ack was written, or the
    packet is a Data or DataAck whose window counter is 4 or more ahead
    (mod 16) of the latest one read before the Ack. *)
Theorem OnRead_after_ack r ph opts r1 log ff :
  ccid3.open r = true ->
  dccp.ph_Type ph = dccp.Ack \/ dccp.ph_Type ph = dccp.DataAck ->
  ccid3.OnWrite ph r = Done opts r1 log ->
  exists v r2 log2,
    ccid3.OnRead ff r1 = Done v r2 log2 /\
    (v = Some dccp.CongestionAck <->
       ccid3.lt_LossEventRateInv (ccid3.receiverLossTracker r2)
         < ccid3.lt_LossEventRateInv (ccid3.receiverLossTracker r)
       \/ (ccid3.isDataOrDataAck (dccp.ff_Type ff) = true /\
           (dccp.ff_CCVal ff - ccid3.latestCCVal r) mod 16 >= 4)).
Proof.
  intros Hopen Hty Hrun.
  destruct (OnWrite_ack_returned r ph Hopen Hty Hrun)
    as (Hopen1 & _ & Hcc & Hinv & _ & _).
  destruct (OnRead_signal_cases r1 ff Hopen1) as (v & r2 & log2 & Hrun2 & _ & Hiff).
  rewrite Hcc, Hinv in Hiff.
  exists v, r2, log2. split; assumption.
Qed.

(** X11: [Close] followed by [Open] never panics and starts afresh, whatever
    the receiver was before: the sub-modules are initialised, the sentinel
    is stored in [lastLossEventRateInv], and every other field is zero, so
    the old [gsr] is forgotten. *)
Theorem Close_then_Open_resets r :
  (ccid3.Close ;; ccid3.Open) r =
    Done tt
      (ccid3.mkReceiver
         (ccid3.rte_Init (ccid3.receiverRoundtripEstimator r))
         (ccid3.rc_Init (ccid3.receiverRateCalculator r))
         (ccid3.lt_Init (ccid3.receiverLossTracker r))
         true 0 0 false ccid3.UnknownLossEventRateInv 0 0 0 0) [].
Proof. destruct r. reflexivity. Qed.

(** [OnWrite] on a closed receiver. *)
Lemma OnWrite_closed r ph :
  ccid3.open r = false ->
  ccid3.OnWrite ph r = Done [] (ccid3.set_lastWrite (dccp.ph_Time ph) r) [].
Proof.
  destruct r as [e rc l o lw la d ll g gt lc cc], ph as [ty sq ak cv tm].
  cbn [ccid3.open]; intros ->. go_run.
  destruct (ccid3.rte_RTT e tm) as [rtt est]. reflexivity.
Qed.

(** X12: a closed receiver stays silent: any run of [Close], [OnWrite],
    [OnRead] and [OnIdle] calls returns, logs nothing, and changes no field
    but [lastWrite]; no [AckNo] makes it panic. *)
Theorem closed_stays_silent (cs : list harness.call) :
  forall r,
  ccid3.open r = false ->
  forallb (fun c => negb (harness.is_CallOpen c)) cs = true ->
  exists lw, harness.calls cs r = Done tt (ccid3.set_lastWrite lw r) [].
Proof.
  induction cs as [| c rest IH]; intros r Hclosed Hcs.
  - exists (ccid3.lastWrite r). destruct r. reflexivity.
  - cbn in Hcs. apply andb_true_iff in Hcs as [Hc Hrest].
    assert (Hstep : exists lw,
               harness.do_call c r = Done tt (ccid3.set_lastWrite lw r) []).
    { destruct c as [| | ph | ff | now]; cbn [harness.do_call].
      - discriminate Hc.
      - exists (ccid3.lastWrite r). destruct r as [e rc l o lw la d ll g gt lc cc].
        cbn [ccid3.open] in Hclosed. subst o. reflexivity.
      - exists (dccp.ph_Time ph). unfold bind. now rewrite OnWrite_closed.
      - exists (ccid3.lastWrite r). unfold bind. rewrite OnRead_closed by assumption.
        destruct r. reflexivity.
      - exists (ccid3.lastWrite r). unfold bind. rewrite OnIdle_closed by assumption.
        destruct r. reflexivity. }
    destruct Hstep as (lw1 & Hstep).
    assert (Hclosed1 : ccid3.open (ccid3.set_lastWrite lw1 r) = false)
      by (destruct r; exact Hclosed).
    destruct (IH _ Hclosed1 Hrest) as (lw2 & Hrun).
    exists lw2. cbn [harness.calls]. unfold bind at 1. rewrite Hstep, Hrun.
    destruct r. reflexivity.
Qed.

(** The state a call leaves is the state its last step leaves. *)
Lemma state_of_then_ret {S Ev A : Type} (m : go S Ev A) (s : S) :
  state_of ((m ;; ret tt) s) = state_of (m s).
Proof. unfold bind, ret. destruct (m s); reflexivity. Qed.

(** [OnWrite] never touches [gsr] or [gsrTimestamp], returning or not. *)
Lemma OnWrite_keeps_gsr r ph :
  ccid3.gsr (state_of (ccid3.OnWrite ph r)) = ccid3.gsr r /\
  ccid3.gsrTimestamp (state_of (ccid3.OnWrite ph r)) = ccid3.gsrTimestamp r.
Proof.
  destruct r as [e rc l o lw la d ll g gt lc cc], ph as [ty sq ak cv tm].
  destruct o; destruct ty; go_run;
    destruct (ccid3.rte_RTT e tm) as [rtt est]; go_run;
    try (split; reflexivity).
  all: destruct (ccid3.rc_Flush rc rtt tm) as [rc' rate] eqn:Hflush;
       destruct (g >? 0); go_run;
       try (destruct (g =? 0); go_run);
       try (destruct (ak =? g); go_run);
       try go_options Hflush;
       split; reflexivity.
Qed.

Lemma do_call_gsr_seen (c : harness.call) r :
  harness.gsr_seen r -> harness.gsr_seen (state_of (harness.do_call c r)).
Proof.
  unfold harness.gsr_seen. intros [Hge Hzero].
  destruct c as [| | ph | ff | now]; cbn [harness.do_call].
  - destruct r as [e rc l o lw la d ll g gt lc cc]. destruct o; cbn.
    + split; assumption.
    + split; [lia | reflexivity].
  - destruct r. cbn. split; assumption.
  - rewrite state_of_then_ret.
    destruct (OnWrite_keeps_gsr r ph) as [-> ->]. split; assumption.
  - rewrite state_of_then_ret.
    destruct (ccid3.open r) eqn:Hopen.
    + destruct (OnRead_open_step r ff Hopen)
        as (v & r1 & log1 & -> & _ & Hgsr & Hts & _).
      cbn [state_of]. rewrite Hgsr, Hts.
      destruct (Z.gtb_spec (dccp.ff_SeqNo ff) (ccid3.gsr r));
        (split; [lia |]); intros Hz; first [lia | apply Hzero; lia].
    + rewrite OnRead_closed by assumption. cbn. split; assumption.
  - rewrite state_of_then_ret.
    destruct (ccid3.open r) eqn:Hopen.
    + rewrite OnIdle_open by assumption. cbn. split; assumption.
    + rewrite OnIdle_closed by assumption. cbn. split; assumption.
Qed.

Lemma calls_gsr_seen (cs : list harness.call) :
  forall r, harness.gsr_seen r -> harness.gsr_seen (state_of (harness.calls cs r)).
Proof.
  induction cs as [| c rest IH]; intros r Hr; [exact Hr |].
  cbn [harness.calls]. unfold bind.
  pose proof (do_call_gsr_seen c Hr) as Hstep.
  destruct (harness.do_call c r) as [[] r1 t1 | msg r1 t1 | r1 t1];
    cbn [state_of] in Hstep; [| exact Hstep | exact Hstep].
  pose proof (IH r1 Hstep) as Hrest.
  destruct (harness.calls rest r1); exact Hrest.
Qed.

(** X13: whatever the connection calls on a receiver made by
    [newReceiver], in whatever order, and whether a call panics or not,
    [gsr] is never negative, and while it is 0 so is [gsrTimestamp].  So
    the test [gsr > 0] of [OnWrite] and the test [gsr == 0] of
    [makeElapsedTimeOption] always agree. *)
Theorem gsr_never_negative (cs : list harness.call) :
  harness.gsr_seen (state_of (harness.calls cs ccid3.newReceiver)).
Proof.
  apply calls_gsr_seen. unfold harness.gsr_seen. cbn. split; [lia | reflexivity].
Qed.

(** X14: [makeElapsedTimeOption] by cases.  With [gsr == 0] it returns nil
    and does not look at [ackNo]; with another [gsr] it panics unless
    [ackNo == gsr]; otherwise the option carries the time since
    [gsrTimestamp], never a negative one: a clock that ran backwards gives
    0.  It never changes the receiver and never logs. *)
Theorem makeElapsedTimeOption_cases r (ackNo now : Z) :
  (ccid3.gsr r = 0 ->
     ccid3.makeElapsedTimeOption ackNo now r = Done None r []) /\
  (ccid3.gsr r <> 0 -> ackNo <> ccid3.gsr r ->
     ccid3.makeElapsedTimeOption ackNo now r
       = Panicked "ccid3 receiver: GSR != AckNo" r []) /\
  (ccid3.gsr r <> 0 -> ackNo = ccid3.gsr r ->
     0 <= now < 2 ^ 63 -> 0 <= ccid3.gsrTimestamp r < 2 ^ 63 ->
     ccid3.makeElapsedTimeOption ackNo now r
       = Done (Some (dccp.mkElapsedTimeOption
                       (ccid3.TenMicroFromNano
                          (Z.max 0 (now - ccid3.gsrTimestamp r))))) r []).
Proof.
  destruct r as [e rc l o lw la d ll g gt lc cc]. cbn [ccid3.gsr ccid3.gsrTimestamp].
  repeat split.
  - intros ->. reflexivity.
  - intros Hg Hne. go_run.
    destruct (Z.eqb_spec g 0); [contradiction |].
    destruct (Z.eqb_spec ackNo g); [contradiction | reflexivity].
  - intros Hg -> Hnow Hts. go_run.
    destruct (Z.eqb_spec g 0); [contradiction |].
    rewrite Z.eqb_refl. unfold ccid3.max64.
    rewrite (sub64_exact Hnow Hts). reflexivity.
Qed.

(** X15: the first packet read after [Open].  [gsr] becomes its [SeqNo] when
    that is positive; the call signals exactly when the loss tracker already
    reports a value below the sentinel, or the packet is a Data or DataAck
    whose window counter is 4 or more (mod 16), because [lastCCVal] starts
    at 0. *)
Theorem first_read_after_Open r ff :
  ccid3.open r = false ->
  exists v r' log,
    (ccid3.Open ;; ccid3.OnRead ff) r = Done v r' log /\
    ccid3.gsr r' = Z.max 0 (dccp.ff_SeqNo ff) /\
    (v = Some dccp.CongestionAck <->
       ccid3.lt_LossEventRateInv (ccid3.receiverLossTracker r')
         < ccid3.UnknownLossEventRateInv
       \/ (ccid3.isDataOrDataAck (dccp.ff_Type ff) = true /\
           dccp.ff_CCVal ff mod 16 >= 4)).
Proof.
  intros Hclosed.
  set (r0 := ccid3.mkReceiver
               (ccid3.rte_Init (ccid3.receiverRoundtripEstimator r))
               (ccid3.rc_Init (ccid3.receiverRateCalculator r))
               (ccid3.lt_Init (ccid3.receiverLossTracker r))
               true 0 0 false ccid3.UnknownLossEventRateInv 0 0 0 0).
  assert (Hopened : ccid3.Open r = Done tt r0 []).
  { destruct r as [e rc l o lw la d ll g gt lc cc].
    cbn [ccid3.open] in Hclosed. subst o. reflexivity. }
  destruct (OnRead_signal_cases r0 ff eq_refl)
    as (v & r1 & log1 & Hrun & _ & Hiff).
  destruct (OnRead_open_step r0 ff eq_refl)
    as (v' & r1' & log1' & Hrun' & _ & Hgsr & _).
  rewrite Hrun in Hrun'. injection Hrun' as <- <- <-.
  exists v, r1, log1. unfold bind. rewrite Hopened, Hrun.
  split; [reflexivity |]. split; [exact Hgsr |].
  cbn [ccid3.lastLossEventRateInv ccid3.lastCCVal r0] in Hiff.
  now rewrite Z.sub_0_r in Hiff.
Qed.

End ReceiverMore.

(** * Further properties of teardown *)

(** X16: with the mutex free, [abort] and [kill] always leave the socket in
    state CLOSED and the mutex free again, whatever the state of the
    channels and whether the call returns or panics; they never touch the
    sequence numbers of the socket or the data waiting in [readApp] and
    [writeData]. *)
Theorem teardown_ends_closed (c : dccp_conn.Conn) :
  dccp_conn.lk c = false ->
  forall c',
  c' = state_of (dccp_conn.abort c) \/ c' = state_of (dccp_conn.kill c) ->
  dccp_conn.sk_State (dccp_conn.c_socket c') = dccp.CLOSED /\
  dccp_conn.lk c' = false /\
  dccp_conn.sk_ISS (dccp_conn.c_socket c') = dccp_conn.sk_ISS (dccp_conn.c_socket c) /\
  dccp_conn.sk_ISR (dccp_conn.c_socket c') = dccp_conn.sk_ISR (dccp_conn.c_socket c) /\
  dccp_conn.sk_GSR (dccp_conn.c_socket c') = dccp_conn.sk_GSR (dccp_conn.c_socket c) /\
  dccp_conn.sk_GAR (dccp_conn.c_socket c') = dccp_conn.sk_GAR (dccp_conn.c_socket c) /\
  dccp_conn.ch_buf (dccp_conn.readApp c') = dccp_conn.ch_buf (dccp_conn.readApp c) /\
  dccp_conn.ch_buf (dccp_conn.writeData c') = dccp_conn.ch_buf (dccp_conn.writeData c).
Proof.
  destruct c as [l [st iss isr gsr gar] [ra ra_closed] [wd wd_closed] [wn wn_closed]].
  cbn [dccp_conn.lk]. intros -> c' [-> | ->];
    destruct ra_closed, wd_closed, wn_closed; cbn; repeat split.
Qed.

Lemma teardown_ends_closed_witness :
  dccp_conn.lk (dccp_conn.live dccp.OPEN) = false /\
  dccp_conn.sk_State
    (dccp_conn.c_socket (state_of (dccp_conn.kill (dccp_conn.live dccp.OPEN))))
    = dccp.CLOSED /\
  dccp_conn.lk (state_of (dccp_conn.kill (dccp_conn.live dccp.OPEN))) = false.
Proof.
  split; [reflexivity |].
  destruct (teardown_ends_closed (dccp_conn.live dccp.OPEN) eq_refl
              (or_intror eq_refl)) as (Hst & Hlk & _).
  split; [exact Hst | exact Hlk].
Defined.

(** X17: when [readApp] or [writeData] is already closed, [abort] and
    [kill] panic in [teardownUser] and never reach [teardownWriteLoop]:
    [writeNonData] is left open, so the write loop is not told to stop;
    [abort] has queued its Reset by then. *)
Theorem teardown_stops_short (c : dccp_conn.Conn) :
  dccp_conn.lk c = false ->
  dccp_conn.ch_closed (dccp_conn.readApp c) = true \/
  dccp_conn.ch_closed (dccp_conn.writeData c) = true ->
  dccp_conn.ch_closed (dccp_conn.writeNonData c) = false ->
  panicked (dccp_conn.abort c) = true /\
  dccp_conn.writeNonData (state_of (dccp_conn.abort c)) =
    dccp_conn.mkChan
      (dccp_conn.ch_buf (dccp_conn.writeNonData c)
         ++ [dccp_conn.mkHeader dccp.Reset dccp.ResetAborted]) false /\
  panicked (dccp_conn.kill c) = true /\
  dccp_conn.writeNonData (state_of (dccp_conn.kill c)) = dccp_conn.writeNonData c.
Proof.
  destruct c as [l k [ra ra_closed] [wd wd_closed] [wn wn_closed]].
  cbn [dccp_conn.lk dccp_conn.readApp dccp_conn.writeData
       dccp_conn.writeNonData dccp_conn.ch_closed dccp_conn.ch_buf].
  intros -> Hclosed ->.
  destruct Hclosed as [-> | ->];
    [destruct wd_closed | destruct ra_closed]; cbn; repeat split.
Qed.

Lemma teardown_stops_short_witness :
  dccp_conn.lk
    (dccp_conn.set_readApp (dccp_conn.mkChan [] true) (dccp_conn.live dccp.OPEN))
    = false /\
  panicked
    (dccp_conn.abort
       (dccp_conn.set_readApp (dccp_conn.mkChan [] true) (dccp_conn.live dccp.OPEN)))
    = true /\
  dccp_conn.writeNonData
    (state_of
       (dccp_conn.abort
          (dccp_conn.set_readApp (dccp_conn.mkChan [] true) (dccp_conn.live dccp.OPEN))))
    = dccp_conn.mkChan [dccp_conn.mkHeader dccp.Reset 2] false.
Proof.
  split; [reflexivity |].
  destruct (teardown_stops_short
              (dccp_conn.set_readApp (dccp_conn.mkChan [] true)
                 (dccp_conn.live dccp.OPEN))
              eq_refl (or_introl eq_refl) eq_refl) as (Hp & Hwn & _).
  split; [exact Hp | exact Hwn].
Defined.

(** X18: on a connection whose mutex is free and whose channels are open,
    [kill] takes the steps of [abort] without the inject, in the same
    order, and ends in the same connection but for the Reset that [abort]
    has added at the end of [writeNonData]; [kill] itself queues nothing. *)
Theorem abort_is_kill_plus_reset (c : dccp_conn.Conn) :
  dccp_conn.lk c = false ->
  dccp_conn.ch_closed (dccp_conn.readApp c) = false ->
  dccp_conn.ch_closed (dccp_conn.writeData c) = false ->
  dccp_conn.ch_closed (dccp_conn.writeNonData c) = false ->
  exists ca ck tra trk,
    dccp_conn.abort c = Done tt ca tra /\
    dccp_conn.kill c = Done tt ck trk /\
    trk = filter (fun st => negb (harness.is_inject st)) tra /\
    dccp_conn.ch_buf (dccp_conn.writeNonData ck)
      = dccp_conn.ch_buf (dccp_conn.writeNonData c) /\
    ca = dccp_conn.set_writeNonData
           (dccp_conn.mkChan
              (dccp_conn.ch_buf (dccp_conn.writeNonData ck)
                 ++ [dccp_conn.mkHeader dccp.Reset dccp.ResetAborted]) true) ck.
Proof.
  destruct c as [l k [ra ra_closed] [wd wd_closed] [wn wn_closed]].
  cbn [dccp_conn.lk dccp_conn.readApp dccp_conn.writeData
       dccp_conn.writeNonData dccp_conn.ch_closed dccp_conn.ch_buf].
  intros -> -> -> ->. do 4 eexists. conn_run. cbn. repeat split.
Qed.

Lemma abort_is_kill_plus_reset_witness :
  dccp_conn.lk (dccp_conn.live dccp.OPEN) = false /\
  exists ca ck tra trk,
    dccp_conn.abort (dccp_conn.live dccp.OPEN) = Done tt ca tra /\
    dccp_conn.kill (dccp_conn.live dccp.OPEN) = Done tt ck trk /\
    trk = filter (fun st => negb (harness.is_inject st)) tra /\
    dccp_conn.ch_buf (dccp_conn.writeNonData ck) = [] /\
    ca = dccp_conn.set_writeNonData
           (dccp_conn.mkChan
              (dccp_conn.ch_buf (dccp_conn.writeNonData ck)
                 ++ [dccp_conn.mkHeader dccp.Reset 2]) true) ck.
Proof.
  split; [reflexivity |].
  exact (abort_is_kill_plus_reset (dccp_conn.live dccp.OPEN)
           eq_refl eq_refl eq_refl eq_refl).
Defined.

(** * The further properties on the test double *)

Lemma OnWrite_ack_side_effects_witness :
  ccid3.open scripted.after_feedback = true /\
  (dccp.ph_Type (scripted.ack 7 5000) = dccp.Ack \/
   dccp.ph_Type (scripted.ack 7 5000) = dccp.DataAck) /\
  panicked (ccid3.OnWrite (scripted.ack 7 5000) scripted.after_feedback) = true /\
  ccid3.lastAck
    (state_of (ccid3.OnWrite (scripted.ack 7 5000) scripted.after_feedback)) = 5000 /\
  ccid3.dataSinceAck
    (state_of (ccid3.OnWrite (scripted.ack 7 5000) scripted.after_feedback)) = false /\
  ccid3.lastLossEventRateInv
    (state_of (ccid3.OnWrite (scripted.ack 7 5000) scripted.after_feedback)) = 100.
Proof.
  split; [reflexivity |]. split; [left; reflexivity |]. split; [reflexivity |].
  destruct (OnWrite_ack_side_effects (C := scripted.E) scripted.after_feedback
              (scripted.ack 7 5000) eq_refl (or_introl eq_refl))
    as (_ & Hack & Hdata & Hinv & _).
  split; [exact Hack |]. split; [exact Hdata | exact Hinv].
Defined.

Lemma OnWrite_not_ack_witness :
  ccid3.open scripted.after_feedback = true /\
  harness.isAckOrDataAck
    (dccp.ph_Type (dccp.mkPreHeader dccp.Data 2 8 0 5000)) = false /\
  ccid3.OnWrite (dccp.mkPreHeader dccp.Data 2 8 0 5000) scripted.after_feedback
    = Done [] (ccid3.set_lastWrite 5000 scripted.after_feedback) [].
Proof.
  split; [reflexivity |]. split; [reflexivity |].
  exact (OnWrite_not_ack (C := scripted.E) scripted.after_feedback
           (dccp.mkPreHeader dccp.Data 2 8 0 5000) eq_refl eq_refl).
Defined.

Lemma OnWrite_ack_flush_witness :
  ccid3.open scripted.after_feedback = true /\
  (dccp.ph_Type (scripted.ack 8 5000) = dccp.Ack \/
   dccp.ph_Type (scripted.ack 8 5000) = dccp.DataAck) /\
  ccid3.receiverRateCalculator scripted.after_feedback = 1 /\
  ccid3.receiverRateCalculator
    (state_of (ccid3.OnWrite (scripted.ack 8 5000) scripted.after_feedback)) = 0.
Proof.
  split; [reflexivity |]. split; [left; reflexivity |]. split; [reflexivity |].
  exact (OnWrite_ack_flush (C := scripted.E) scripted.after_feedback
           (scripted.ack 8 5000) eq_refl (or_introl eq_refl)).
Defined.

Lemma OnRead_effects_witness :
  ccid3.open scripted.after_feedback = true /\
  exists v r',
    ccid3.OnRead (scripted.packet dccp.Data 9 4 4000) scripted.after_feedback
      = Done v r'
          [dccp.LogE dccp.EventInfo "stub";
           dccp.LogE dccp.EventInfo "RTT=ns EST=false"] /\
    ccid3.receiverLossTracker r' = [90] /\
    ccid3.dataSinceAck r' = true /\
    ccid3.latestCCVal r' = 4 /\
    ccid3.lastCCVal r' = 0.
Proof.
  split; [reflexivity |].
  destruct (OnRead_effects (C := scripted.E) scripted.after_feedback
              (scripted.packet dccp.Data 9 4 4000) eq_refl)
    as (v & r' & Hrun & _ & _ & Hlt & Hd & Hcc & _ & _ & _ & _ & Hlc).
  exists v, r'. split; [exact Hrun |]. split; [exact Hlt |].
  split; [exact Hd |]. split; [exact Hcc | exact Hlc].
Defined.

Lemma reads_gsr_greatest_witness :
  ccid3.open scripted.opened = true /\
  exists r' log,
    harness.reads
      [scripted.packet dccp.Data 5 0 1000; scripted.packet dccp.Data 9 1 2000;
       scripted.packet dccp.Data 7 2 3000; scripted.packet dccp.Data 9 3 4000]
      scripted.opened = Done tt r' log /\
    ccid3.gsr r' = 9.
Proof.
  split; [reflexivity |].
  destruct (reads_gsr_greatest (C := scripted.E)
              [scripted.packet dccp.Data 5 0 1000; scripted.packet dccp.Data 9 1 2000;
               scripted.packet dccp.Data 7 2 3000; scripted.packet dccp.Data 9 3 4000]
              scripted.opened eq_refl) as (r' & log & Hrun & Hgsr & _).
  exists r', log. split; [exact Hrun | exact Hgsr].
Defined.

Lemma OnIdle_quiet_after_ack_witness :
  ccid3.open scripted.after_feedback = true /\
  (dccp.ph_Type (scripted.ack 8 5000) = dccp.Ack \/
   dccp.ph_Type (scripted.ack 8 5000) = dccp.DataAck) /\
  ccid3.OnWrite (scripted.ack 8 5000) scripted.after_feedback
    = Done [Some (dccp.mkOption 43 [0]); Some (dccp.mkOption 194 [1]);
       Some (dccp.mkOption 193 [100])]
        (state_of (ccid3.OnWrite (scripted.ack 8 5000) scripted.after_feedback))
        [dccp.LogE dccp.EventInfo "Placed 3 receiver opts"] /\
  harness.no_data
    [scripted.packet dccp.Ack 9 0 6000; scripted.packet dccp.Sync 10 0 7000] = true /\
  exists r2 log2,
    harness.reads
      [scripted.packet dccp.Ack 9 0 6000; scripted.packet dccp.Sync 10 0 7000]
      (state_of (ccid3.OnWrite (scripted.ack 8 5000) scripted.after_feedback))
      = Done tt r2 log2 /\
    forall now, ccid3.OnIdle now r2 = Done None r2 [].
Proof.
  split; [reflexivity |]. split; [left; reflexivity |].
  split; [reflexivity |]. split; [reflexivity |].
  exact (@OnIdle_quiet_after_ack scripted.E
           scripted.after_feedback (scripted.ack 8 5000)
           [Some (dccp.mkOption 43 [0]); Some (dccp.mkOption 194 [1]);
            Some (dccp.mkOption 193 [100])]
           (state_of (ccid3.OnWrite (scripted.ack 8 5000) scripted.after_feedback))
           [dccp.LogE dccp.EventInfo "Placed 3 receiver opts"]
           [scripted.packet dccp.Ack 9 0 6000; scripted.packet dccp.Sync 10 0 7000]
           eq_refl (or_introl eq_refl) eq_refl eq_refl).
Defined.

Lemma OnRead_after_ack_witness :
  ccid3.open scripted.after_feedback = true /\
  (dccp.ph_Type (scripted.ack 8 5000) = dccp.Ack \/
   dccp.ph_Type (scripted.ack 8 5000) = dccp.DataAck) /\
  ccid3.OnWrite (scripted.ack 8 5000) scripted.after_feedback
    = Done [Some (dccp.mkOption 43 [0]); Some (dccp.mkOption 194 [1]);
       Some (dccp.mkOption 193 [100])]
        (state_of (ccid3.OnWrite (scripted.ack 8 5000) scripted.after_feedback))
        [dccp.LogE dccp.EventInfo "Placed 3 receiver opts"] /\
  exists v r2 log2,
    ccid3.OnRead (scripted.packet dccp.Ack 9 0 6000)
      (state_of (ccid3.OnWrite (scripted.ack 8 5000) scripted.after_feedback))
      = Done v r2 log2 /\
    (v = Some dccp.CongestionAck <->
       ccid3.lt_LossEventRateInv (ccid3.receiverLossTracker r2) < 100
       \/ (ccid3.isDataOrDataAck dccp.Ack = true /\ (0 - 0) mod 16 >= 4)).
Proof.
  split; [reflexivity |]. split; [left; reflexivity |]. split; [reflexivity |].
  exact (@OnRead_after_ack scripted.E
           scripted.after_feedback (scripted.ack 8 5000)
           [Some (dccp.mkOption 43 [0]); Some (dccp.mkOption 194 [1]);
            Some (dccp.mkOption 193 [100])]
           (state_of (ccid3.OnWrite (scripted.ack 8 5000) scripted.after_feedback))
           [dccp.LogE dccp.EventInfo "Placed 3 receiver opts"]
           (scripted.packet dccp.Ack 9 0 6000)
           eq_refl (or_introl eq_refl) eq_refl).
Defined.

Lemma closed_stays_silent_witness :
  ccid3.open scripted.fresh = false /\
  forallb (fun c => negb (harness.is_CallOpen c))
      [harness.CallOnWrite (scripted.ack 3 100);
       harness.CallOnRead (scripted.packet dccp.Data 4 5 200);
       harness.CallOnIdle 300; harness.CallClose;
       harness.CallOnWrite (scripted.ack 4 400)] = true /\
  exists lw,
    harness.calls
      [harness.CallOnWrite (scripted.ack 3 100);
       harness.CallOnRead (scripted.packet dccp.Data 4 5 200);
       harness.CallOnIdle 300; harness.CallClose;
       harness.CallOnWrite (scripted.ack 4 400)]
      scripted.fresh
      = Done tt (ccid3.set_lastWrite lw scripted.fresh) [].
Proof.
  split; [reflexivity |]. split; [reflexivity |].
  exact (closed_stays_silent (C := scripted.E)
           [harness.CallOnWrite (scripted.ack 3 100);
            harness.CallOnRead (scripted.packet dccp.Data 4 5 200);
            harness.CallOnIdle 300; harness.CallClose;
            harness.CallOnWrite (scripted.ack 4 400)]
           scripted.fresh eq_refl eq_refl).
Defined.

Lemma first_read_after_Open_witness :
  ccid3.open scripted.fresh = false /\
  exists v r' log,
    (ccid3.Open ;; ccid3.OnRead (scripted.packet dccp.Data 7 4 1000)) scripted.fresh
      = Done v r' log /\
    ccid3.gsr r' = 7 /\
    (v = Some dccp.CongestionAck <->
       ccid3.lt_LossEventRateInv (ccid3.receiverLossTracker r')
         < ccid3.UnknownLossEventRateInv
       \/ (ccid3.isDataOrDataAck dccp.Data = true /\ 4 mod 16 >= 4)).
Proof.
  split; [reflexivity |].
  exact (first_read_after_Open (C := scripted.E) scripted.fresh
           (scripted.packet dccp.Data 7 4 1000) eq_refl).
Defined.
